(** * everything-is-everywhere: grid building, metric scoring, spatial joins

    A shallow embedding of the four analysis scripts under [src/analysis]:

    - [create_grid_and_release_locs.py]      ([generate_grid]),
    - [create_grid_polygon_metrics_df.py]    ([generate_analysis_csv]),
    - [extract_release_and_settlement_polys.py] ([extract_particle_positions],
      [assign_polygons], [process_nc_to_csv]),
    - [ersem_nc_to_polygons.py]              ([extract_and_average_ersem],
      [map_to_polygons], [process_ersem_to_polygons]).

    The functions that only write a file ([save_grid_as_shapefile],
    [save_centroids_as_csv]) are not embedded; a function that ends by
    writing a table returns that table.

    Python floats are IEEE 754 binary64 numbers; they are embedded as Rocq's
    primitive floats, so that the scripts can be evaluated bit for bit.  The
    scoring formulas are written over an interface of arithmetic, read at
    binary64 and at exact real arithmetic with a NaN.  Python exceptions are
    embedded as the [Err] case of [result].  The geometry library
    (shapely/GEOS) is embedded by a model of closed planar regions built
    from axis-aligned rectangles, the only shapes the grid builder itself
    constructs; the spatial joins are embedded for any predicate [within].

    Part I is the embedding, Part II holds the notions and the examples the
    statements use, Part III the properties. *)

From Stdlib Require Import String.
From Stdlib Require Import ZArith List Bool Floats Lia Reals Lra.
Import ListNotations.

Set Warnings "-inexact-float".

(* ================================================================== *)
(** * Part I: the embedding                                           *)
(* ================================================================== *)

(** ** Exceptions *)

Inductive exn : Type :=
| ZeroDivisionError
| ValueError (msg : string)
| OverflowError (msg : string)
| KeyError (key : string)
| FileNotFound (path : string).

Inductive result (A : Type) : Type :=
| Ok (a : A)
| Err (e : exn).

Arguments Ok {A} a.
Arguments Err {A} e.

Definition bind {A B : Type} (r : result A) (k : A -> result B) : result B :=
  match r with
  | Ok a => k a
  | Err e => Err e
  end.

Notation "x <- r ;; k" := (bind r (fun x => k))
  (at level 61, r at next level, right associativity).

(** ** IEEE binary64 helpers *)

Module F64.

Local Open Scope Z_scope.

(** The exponent of the least positive binary64 number, [2^-1074]: every
    finite binary64 number is an integer multiple of it. *)
Definition emin : Z := -1074.

(** The exact value of a float, in units of [2^-1074].  An infinity is sent
    beyond every finite value and a NaN to [0]. *)
Definition exact (f : float) : Z :=
  match Prim2SF f with
  | S754_zero _ => 0
  | S754_finite s m e => (if s then - Z.pos m else Z.pos m) * 2 ^ (e - emin)
  | S754_infinity s => if s then - 2 ^ 2098 else 2 ^ 2098
  | S754_nan => 0
  end.

(** C's [ceil] followed by the conversion to an integer; [None] for a NaN or
    an infinity. *)
Definition ceil (f : float) : option Z :=
  match Prim2SF f with
  | S754_zero _ => Some 0
  | S754_finite s m e =>
      let n := if s then - Z.pos m else Z.pos m in
      Some (if 0 <=? e then n * 2 ^ e else - ((- n) / 2 ^ (- e)))
  | S754_infinity _ => None
  | S754_nan => None
  end.

(** The conversion of a C [npy_intp] to [double] (exact below [2^53]). *)
Definition of_Z (n : Z) : float :=
  if 0 <=? n then PrimFloat.of_uint63 (Uint63.of_Z n)
  else PrimFloat.opp (PrimFloat.of_uint63 (Uint63.of_Z (- n))).

End F64.

(** ** numpy.arange on Python floats

    [np.arange(start, stop, step)] computes the length
    [ceil((stop - start) / step)] in double precision, stores [start] and
    [start + step], and fills the rest as [start + i * delta] with
    [delta = (start + step) - start]. *)

Definition NPY_MIN_INTP : Z := - 2 ^ 63.

Definition NPY_MAX_INTP : Z := 2 ^ 63 - 1.

(** The length: Python's float division raises on a zero step; numpy's
    [_arange_safe_ceil_to_intp] rejects a NaN and a length outside the range
    of [npy_intp] (the bounds compared as doubles, where [NPY_MAX_INTP] is
    [2^63]); a length below zero counts as zero. *)
Definition arange_length (start stop step : float) : result Z :=
  if PrimFloat.eqb step 0 then Err ZeroDivisionError
  else
    let value := ((stop - start) / step)%float in
    if PrimFloat.is_nan value
    then Err (ValueError "arange: cannot compute length")
    else
      match F64.ceil value with
      | None => Err (OverflowError "arange: overflow while computing length")
      | Some ivalue =>
          if ((NPY_MIN_INTP <=? ivalue) && (ivalue <=? NPY_MAX_INTP + 1))%Z
          then Ok (Z.max 0 ivalue)
          else Err (OverflowError "arange: overflow while computing length")
      end.

Definition arange_fill (start next : float) (length : nat) : list float :=
  let delta := (next - start)%float in
  firstn length
    (start :: next ::
     map (fun i => (start + F64.of_Z (Z.of_nat i) * delta)%float)
         (seq 2 (length - 2))).

Definition arange (start stop step : float) : result (list float) :=
  len <- arange_length start stop step ;;
  Ok (arange_fill start (start + step)%float (Z.to_nat len)).

(** ** Planar geometry

    A region is a finite union of closed axis-aligned rectangles
    [[x0,x1] x [y0,y1]] with exact coordinates (in units of [2^-1074], see
    [F64.exact]).  A rectangle may be degenerate: a segment or a point.
    As in GEOS, regions are closed point sets: the difference of two regions
    is the closure of the set difference, and two regions that share only
    boundary points do intersect. *)

Record rect : Type := mkrect { x0 : Z; y0 : Z; x1 : Z; y1 : Z }.

Definition geometry : Type := list rect.

Module Geo.

Local Open Scope Z_scope.

(** [shapely.geometry.box(minx, miny, maxx, maxy)] *)
Definition box (minx miny maxx maxy : float) : geometry :=
  let ax := F64.exact minx in let bx := F64.exact maxx in
  let ay := F64.exact miny in let by' := F64.exact maxy in
  [mkrect (Z.min ax bx) (Z.min ay by') (Z.max ax bx) (Z.max ay by')].

(** [shapely.geometry.Point(x, y)] *)
Definition Point (x y : float) : geometry :=
  [mkrect (F64.exact x) (F64.exact y) (F64.exact x) (F64.exact y)].

Definition is_empty (g : geometry) : bool :=
  match g with
  | [] => true
  | _ :: _ => false
  end.

(** The closed rectangles [a] and [b] have a point in common. *)
Definition rect_meets (a b : rect) : bool :=
  (Z.max (x0 a) (x0 b) <=? Z.min (x1 a) (x1 b)) &&
  (Z.max (y0 a) (y0 b) <=? Z.min (y1 a) (y1 b)).



(** On one axis: the relative interior of [[a0,a1]] (the open interval, or
    the point itself when [a0 = a1]) meets the closed interval [[b0,b1]]. *)
Definition relint_meets1 (a0 a1 b0 b1 : Z) : bool :=
  if a0 <? a1 then (a0 <? b1) && (b0 <? a1)
  else (b0 <=? a0) && (a0 <=? b1).

(** The relative interior of [a] meets the closed rectangle [b]: exactly then
    the closure of [a \ b] differs from [a].  (The first conjunct follows
    from the other two when [b] is well formed, [x0 b <= x1 b] and
    [y0 b <= y1 b].) *)
Definition relint_meets (a b : rect) : bool :=
  rect_meets a b &&
  relint_meets1 (x0 a) (x1 a) (x0 b) (x1 b) &&
  relint_meets1 (y0 a) (y1 a) (y0 b) (y1 b).

(** The closure of [a \ b], cut into the part left of [b], the part right of
    [b], and the parts below and above [b] in between. *)
Definition rect_diff (a b : rect) : list rect :=
  if relint_meets a b then
    let mx0 := Z.max (x0 a) (x0 b) in
    let mx1 := Z.min (x1 a) (x1 b) in
    (if x0 a <? x0 b then [mkrect (x0 a) (y0 a) (Z.min (x1 a) (x0 b)) (y1 a)] else []) ++
    (if x1 b <? x1 a then [mkrect (Z.max (x0 a) (x1 b)) (y0 a) (x1 a) (y1 a)] else []) ++
    (if y0 a <? y0 b then [mkrect mx0 (y0 a) mx1 (Z.min (y1 a) (y0 b))] else []) ++
    (if y1 b <? y1 a then [mkrect mx0 (Z.max (y0 a) (y1 b)) mx1 (y1 a)] else [])
  else [a].

(** [g.difference(m)] *)
Definition difference (g m : geometry) : geometry :=
  fold_left (fun acc b => flat_map (fun a => rect_diff a b) acc) m g.



(** [g.intersects(m)]: the two closed regions share a point. *)
Definition intersects (g m : geometry) : bool :=
  existsb (fun a => existsb (fun b => rect_meets a b) m) g.

(** The relative interiors of [a] and [b] have a point in common. *)
Definition interiors_meet (a b : rect) : bool :=
  relint_meets a b && relint_meets b a.

(** [g.within(m)]: [g] is not empty, no part of it lies outside [m], and
    the interiors of the two meet. *)
Definition within (g m : geometry) : bool :=
  negb (is_empty g) && is_empty (difference g m) &&
  existsb (fun a => existsb (fun b => interiors_meet a b) m) g.

(** [g.touches(m)]: the regions share a point, but their interiors do
    not meet. *)
Definition touches (g m : geometry) : bool :=
  intersects g m &&
  forallb (fun a => forallb (fun b => negb (interiors_meet a b)) m) g.

(** [GeoSeries.unary_union]: the union of all the geometries of a column. *)
Definition unary_union (gs : list geometry) : geometry := concat gs.

End Geo.

(** ** Vector files

    A shapefile read by [gpd.read_file] is a GeoDataFrame: a geometry column
    and named attribute columns, all of one length.  The file system maps a
    path to the frame stored there. *)

Inductive value : Type :=
| VInt (n : Z)
| VStr (s : string)
| VNaN.

Record GeoDataFrame (G : Type) : Type := mkGeoDataFrame {
  gdf_geometry : list G;
  gdf_columns : list (string * list value)
}.

Arguments mkGeoDataFrame {G} _ _.
Arguments gdf_geometry {G} _.
Arguments gdf_columns {G} _.

Definition filesystem (G : Type) : Type := string -> option (GeoDataFrame G).

Definition read_file {G : Type} (fs : filesystem G) (path : string)
  : result (GeoDataFrame G) :=
  match fs path with
  | Some gdf => Ok gdf
  | None => Err (FileNotFound path)
  end.

(** ** create_grid_and_release_locs.py *)

(** Lines 22-31 of [generate_grid]: the lattice of rectangles. *)
Definition grid_cells (min_lat max_lat min_lon max_lon cell_size_km : float)
  : result (list geometry) :=
  let cell_size_deg := (cell_size_km / 111.0)%float in
  lat_steps <- arange min_lat max_lat cell_size_deg ;;
  lon_steps <- arange min_lon max_lon cell_size_deg ;;
  Ok (flat_map (fun lat =>
        map (fun lon =>
          Geo.box lon lat (lon + cell_size_deg)%float (lat + cell_size_deg)%float)
          lon_steps)
        lat_steps).

(** Lines 40-46 of [generate_grid]: drop the cells on land, clip the others,
    drop what is left empty. *)
Definition clip_to_ocean (land : geometry) (grid : list geometry) : list geometry :=
  let grid := filter (fun g => negb (Geo.within g land)) grid in
  let grid := map (fun g => Geo.difference g land) grid in
  filter (fun g => negb (Geo.is_empty g)) grid.

Definition generate_grid (fs : filesystem geometry)
    (min_lat max_lat min_lon max_lon cell_size_km : float)
    (gebco_mask_shp : string) : result (list geometry) :=
  grid <- grid_cells min_lat max_lat min_lon max_lon cell_size_km ;;
  land_mask <- read_file fs gebco_mask_shp ;;
  Ok (clip_to_ocean (Geo.unary_union (gdf_geometry land_mask)) grid).

(** ** Floating-point arithmetic, as an interface

    The scoring code of [generate_analysis_csv] only adds, subtracts,
    multiplies, divides, compares and takes square roots.  It is written
    once over this interface and read at two instances: [IEEE], the binary64
    arithmetic the script runs on, and [Exact], real arithmetic extended by
    a NaN, which states what the formulas compute when rounding is left
    aside. *)

Class Number (F : Type) : Type := {
  fzero : F;
  fone : F;
  ftwo : F;
  NaN : F;
  isnan : F -> bool;
  fadd : F -> F -> F;
  fsub : F -> F -> F;
  fmul : F -> F -> F;
  fdiv : F -> F -> F;
  fsqrt : F -> F;
  flt : F -> F -> bool;
  feq : F -> F -> bool;
  (** the conversion of a count to a float *)
  of_count : nat -> F;
  (** [10 * np.finfo(np.float64).eps] *)
  ten_eps : F
}.

#[export] Instance IEEE : Number float := {
  fzero := 0%float;
  fone := 1%float;
  ftwo := 2%float;
  NaN := nan;
  isnan := PrimFloat.is_nan;
  fadd := PrimFloat.add;
  fsub := PrimFloat.sub;
  fmul := PrimFloat.mul;
  fdiv := PrimFloat.div;
  fsqrt := PrimFloat.sqrt;
  flt := PrimFloat.ltb;
  feq := PrimFloat.eqb;
  of_count := fun n => F64.of_Z (Z.of_nat n);
  ten_eps := (10 * 0x1p-52)%float
}.

(** Real arithmetic with a NaN: [None] is NaN, every operation on a NaN
    gives a NaN, and so does a division by zero or the square root of a
    negative number. *)
Definition xreal : Type := option R.

Definition xlift2 (f : R -> R -> R) (a b : xreal) : xreal :=
  match a, b with
  | Some x, Some y => Some (f x y)
  | _, _ => None
  end.

Definition xdiv (a b : xreal) : xreal :=
  match a, b with
  | Some x, Some y => if Req_dec_T y 0 then None else Some (x / y)%R
  | _, _ => None
  end.

Definition xsqrt (a : xreal) : xreal :=
  match a with
  | Some x => if Rlt_dec x 0 then None else Some (sqrt x)
  | None => None
  end.

Definition xlt (a b : xreal) : bool :=
  match a, b with
  | Some x, Some y => if Rlt_dec x y then true else false
  | _, _ => false
  end.

Definition xeq (a b : xreal) : bool :=
  match a, b with
  | Some x, Some y => if Req_dec_T x y then true else false
  | _, _ => false
  end.

Definition xisnan (a : xreal) : bool :=
  match a with
  | Some _ => false
  | None => true
  end.

(** [10 * eps] for binary64, [eps = 2^-52] *)
Definition ten_eps_R : R := (10 / 2 ^ 52)%R.

#[export] Instance Exact : Number xreal := {
  fzero := Some 0%R;
  fone := Some 1%R;
  ftwo := Some 2%R;
  NaN := None;
  isnan := xisnan;
  fadd := xlift2 Rplus;
  fsub := xlift2 Rminus;
  fmul := xlift2 Rmult;
  fdiv := xdiv;
  fsqrt := xsqrt;
  flt := xlt;
  feq := xeq;
  of_count := fun n => Some (INR n);
  ten_eps := Some ten_eps_R
}.

(** ** create_grid_polygon_metrics_df.py *)

Section Scores.

Context {F : Type} `{Number F}.

(** [np.fmin] and [np.fmax]: the lesser and the greater, a NaN ignored. *)
Definition fmin (a b : F) : F :=
  if isnan a then b else if isnan b then a else if flt b a then b else a.

Definition fmax (a b : F) : F :=
  if isnan a then b else if isnan b then a else if flt a b then b else a.

(** [np.nanmin], [np.nanmax] and pandas' [Series.min()], [Series.max()]:
    the extremes of the values present, NaN when there is none. *)
Definition nanmin (col : list F) : F := fold_left fmin col NaN.

Definition nanmax (col : list F) : F := fold_left fmax col NaN.

Definition nan_to_zero (x : F) : F := if isnan x then fzero else x.

(** [np.nansum]: a NaN counts as zero. *)
Definition nansum (col : list F) : F :=
  fold_left fadd (map nan_to_zero col) fzero.

Definition count (col : list F) : nat :=
  length (filter (fun x => negb (isnan x)) col).

Definition nanmean (col : list F) : F :=
  fdiv (nansum col) (of_count (count col)).

(** [np.nanstd] with [ddof = 0] *)
Definition nanstd (col : list F) : F :=
  let mn := nanmean col in
  fsqrt (nanmean (map (fun x => fmul (fsub x mn) (fsub x mn)) col)).

(** sklearn's [_handle_zeros_in_scale]: a range below [10 * eps] counts as
    constant and is replaced by 1. *)
Definition handle_zeros_in_scale (scale : F) : F :=
  if flt scale ten_eps then fone else scale.

(** [MinMaxScaler()] with its default [feature_range = (0, 1)], fitted on
    one column. *)
Record MinMaxScaler : Type := mkMinMaxScaler { scale_ : F; min_ : F }.

Definition fit (col : list F) : MinMaxScaler :=
  let data_min := nanmin col in
  let data_max := nanmax col in
  let data_range := fsub data_max data_min in
  let scale := fdiv fone (handle_zeros_in_scale data_range) in
  mkMinMaxScaler scale (fsub fzero (fmul data_min scale)).

Definition transform (s : MinMaxScaler) (col : list F) : list F :=
  map (fun x => fadd (fmul x (scale_ s)) (min_ s)) col.

Definition fit_transform (col : list F) : list F := transform (fit col) col.

(** scipy's [_isconst]: the values present are all equal to the first of
    them; true also when no value is present. *)
Definition isconst (col : list F) : bool :=
  match filter (fun x => negb (isnan x)) col with
  | [] => true
  | y0 :: y => forallb (feq y0) (y0 :: y)
  end.

(** [scipy.stats.zscore(col, nan_policy='omit')], with [ddof = 0]: the mean
    and the standard deviation are taken over the values present; for a
    constant column the deviation is set to 1 and every output to NaN. *)
Definition zscore (col : list F) : list F :=
  let mn := nanmean col in
  let std := if isconst col then fone else nanstd col in
  let z := map (fun x => fdiv (fsub x mn) std) col in
  if isconst col then map (fun _ => NaN) z else z.

(** The rows of a frame given by its columns. *)
Definition rows (n : nat) (cols : list (list F)) : list (list F) :=
  map (fun i => map (fun col => nth i col NaN) cols) (seq 0 n).

(** [df[...].sum(axis=1)], with pandas' default [skipna=True] *)
Definition sum_axis1 (n : nat) (cols : list (list F)) : list F :=
  map nansum (rows n cols).

(** Line 74: [2 * (z_sum - z_sum.min()) / (z_sum.max() - z_sum.min()) - 1] *)
Definition standardize (z_sum : list F) : list F :=
  let lo := nanmin z_sum in
  let hi := nanmax z_sum in
  map (fun z => fsub (fdiv (fmul ftwo (fsub z lo)) (fsub hi lo)) fone) z_sum.

(** The columns [generate_analysis_csv] adds to the merged frame [df]. *)
Record Scores : Type := mkScores {
  norm : list (list F);
  z : list (list F);
  z_sum : list F;
  standard_z_sum : list F
}.

(** Lines 62-74 of [generate_analysis_csv], on the merged frame: [df] holds
    the columns [normalize_cols = ["out"; "in"; "node_betw"; "food_av"]], each
    with [n] rows.  Reading and merging the CSV files, lines 24-60, is not
    embedded; neither is the validation of sklearn, which rejects a frame
    without rows or with an infinite value. *)
Definition generate_analysis_csv (n : nat) (df : list (list F)) : Scores :=
  let norm := map fit_transform df in
  let z := map zscore norm in
  let z_sum := sum_axis1 n z in
  mkScores norm z z_sum (standardize z_sum).

End Scores.

(** Line 36 of [generate_analysis_csv]: the flag of every grid cell. *)
Definition contains_structure (structures grid : list geometry) : list bool :=
  map (fun x => existsb (fun s => Geo.intersects s x) structures) grid.

(** ** create_grid_polygon_metrics_df.py, lines 36-77: the analysis table

    The metric files are taken to have the columns that the renaming of
    lines 52-60 expects: a column [Node] of integers (an empty field is read
    as NaN) and one column of values.  A file read by [pd.read_csv] is then
    the list of its rows [(Node, value)], in file order. *)

Definition table (V : Type) : Type := list (option Z * V).

(** Equality of merge keys: pandas matches a NaN key with a NaN key. *)
Definition key_eqb (a b : option Z) : bool :=
  match a, b with
  | Some x, Some y => Z.eqb x y
  | None, None => true
  | _, _ => false
  end.

(** [left.merge(right, how='left')] on one key: every left row, in order,
    once for each right row with an equal key in the order of [right], and
    once with the right columns missing when there is none. *)
Definition merge {L V : Type} (lkey : L -> option Z) (missing : V)
    (left : list L) (right : table V) : list (L * V) :=
  flat_map (fun l =>
              match filter (fun r => key_eqb (lkey l) (fst r)) right with
              | [] => [(l, missing)]
              | rs => map (fun r => (l, snd r)) rs
              end) left.

(** [grid[[...]]] on a column of the grid file: a [KeyError] when the file
    has no such attribute. *)
Definition column {G : Type} (name : string) (gdf : GeoDataFrame G)
  : result (list value) :=
  match find (fun c => String.eqb (fst c) name) (gdf_columns gdf) with
  | Some c => Ok (snd c)
  | None => Err (KeyError ("['" ++ name ++ "'] not in index"))
  end.

(** The values of an attribute column as keys of a merge with the integer
    column [Cell ID].  A shapefile field holds values of one type; pandas
    refuses to merge an integer column with a column of strings. *)
Fixpoint numeric_keys (vs : list value) : result (list (option Z)) :=
  match vs with
  | [] => Ok []
  | VInt k :: vs => ks <- numeric_keys vs ;; Ok (Some k :: ks)
  | VNaN :: vs => ks <- numeric_keys vs ;; Ok (None :: ks)
  | VStr _ :: _ =>
      Err (ValueError
             "You are trying to merge on int64 and object columns for key 'Cell ID'")
  end.

(** Whether a number is an infinity, which sklearn's input validation
    rejects. *)
Class Infinite (F : Type) : Type := { isinf : F -> bool }.

#[export] Instance IEEE_Infinite : Infinite float :=
  { isinf := PrimFloat.is_infinity }.

#[export] Instance Exact_Infinite : Infinite xreal :=
  { isinf := fun _ => false }.

Section Analysis.

Context {F : Type} `{Number F} `{Infinite F}.

(** The labels of the community file. *)
Variable Label : Type.

(** A row of the merged frame, lines 39-49, under the names its columns
    have before the renaming of lines 52-60 ([Node] becomes a second
    [Cell ID], [Out_Degree] becomes [out], [In_Degree] becomes [in],
    [Betweenness] becomes [node_betw], and so on). *)
Record row : Type := mkrow {
  Cell_ID : nat;
  cell_geometry : geometry;
  Node : option Z;
  In_Degree : F;
  Out_Degree : F;
  Betweenness : F;
  Food_Availability : F;
  Self_Recruitment : F;
  Community : option Label;
  structure_flag : option bool
}.

(** Lines 36-49: the flag of every cell, the cells numbered by position, and
    the seven left merges.  Each merge adds its columns to the right of the
    frame. *)
Definition merged_frame (structures grid : GeoDataFrame geometry)
    (in_degree out_degree betweenness food_av self_recruitment : table F)
    (community : table Label) : result (list row) :=
  let flags :=
    contains_structure (gdf_geometry structures) (gdf_geometry grid) in
  let grid_df :=
    combine (seq 0 (length (gdf_geometry grid))) (gdf_geometry grid) in
  let df1 := merge (fun l : nat * geometry => Some (Z.of_nat (fst l)))
                   (None, NaN) grid_df
                   (map (fun r => (fst r, (fst r, snd r))) in_degree) in
  let df2 := merge (fun l => fst (snd l)) NaN df1 out_degree in
  let df3 := merge (fun l => fst (snd (fst l))) NaN df2 betweenness in
  let df4 := merge (fun l => fst (snd (fst (fst l)))) NaN df3 food_av in
  let df5 := merge (fun l => fst (snd (fst (fst (fst l))))) NaN df4
                   self_recruitment in
  let df6 := merge (fun l => fst (snd (fst (fst (fst (fst l)))))) None df5
                   (map (fun r => (fst r, Some (snd r))) community) in
  ids <- column "Cell ID" grid ;;
  keys <- numeric_keys ids ;;
  let df7 := merge (fun l => Some (Z.of_nat
                                     (fst (fst (fst (fst (fst (fst (fst l)))))))))
                   None df6 (combine keys (map Some flags)) in
  Ok (map (fun t =>
             match t with
             | (((((((i, g), (node, ind)), outd), betw), food), sr), comm, flag) =>
                 mkrow i g node ind outd betw food sr comm flag
             end) df7).

(** sklearn's [check_array], as [MinMaxScaler] calls it: NaN is let
    through, an infinity and a frame without rows are not. *)
Definition check_array (X : list (list F)) (n : nat) : result unit :=
  if existsb (existsb isinf) X
  then Err (ValueError "Input X contains infinity or a value too large for dtype('float64').")
  else if Nat.eqb n 0
  then Err (ValueError "Found array with 0 sample(s) (shape=(0, 4)) while a minimum of 1 is required by MinMaxScaler.")
  else Ok tt.

(** Lines 36-74: the merged frame and the score columns added to it, as
    line 77 writes them. *)
Definition analysis_frame (structures grid : GeoDataFrame geometry)
    (in_degree out_degree betweenness food_av self_recruitment : table F)
    (community : table Label) : result (list row * Scores) :=
  df <- merged_frame structures grid in_degree out_degree betweenness food_av
          self_recruitment community ;;
  let X := [map Out_Degree df; map In_Degree df; map Betweenness df;
            map Food_Availability df] in
  _ <- check_array X (length df) ;;
  Ok (df, generate_analysis_csv (length df) X).

End Analysis.

Arguments row F Label : clear implicits.
Arguments mkrow {F Label} _ _ _ _ _ _ _ _ _ _.
Arguments Cell_ID {F Label} _.
Arguments cell_geometry {F Label} _.
Arguments Node {F Label} _.
Arguments In_Degree {F Label} _.
Arguments Out_Degree {F Label} _.
Arguments Betweenness {F Label} _.
Arguments Food_Availability {F Label} _.
Arguments Self_Recruitment {F Label} _.
Arguments Community {F Label} _.
Arguments structure_flag {F Label} _.
Arguments merged_frame {F _ Label} structures grid in_degree out_degree
  betweenness food_av self_recruitment community.
Arguments analysis_frame {F _ _ Label} structures grid in_degree out_degree
  betweenness food_av self_recruitment community.

(** ** Spatial joins (geopandas.sjoin)

    The joins of the two remaining scripts test points against polygons
    with the predicate [within]; nothing in them depends on what the
    predicate is, so it is a parameter here. *)

Section SpatialJoin.

Variables Point Polygon : Type.
Variable within : Point -> Polygon -> bool.

(** The positions of the polygons a point is within. *)
Definition matches (p : Point) (polys : list Polygon) : list nat :=
  map fst (filter (fun jp => within p (snd jp))
                  (combine (seq 0 (length polys)) polys)).

(** One row of [gpd.sjoin(left, right, how='left', predicate='within')]:
    the label and the content of the left row, and [index_right], the
    position of the matching right row (NaN when there is none). *)
Record joined (A : Type) : Type := mkjoined {
  label : nat;
  left_row : A;
  index_right : option nat
}.

Arguments mkjoined {A} _ _ _.
Arguments label {A} _.
Arguments left_row {A} _.
Arguments index_right {A} _.

Definition sjoin_row {A : Type} (geom : A -> Point) (polys : list Polygon)
    (ia : nat * A) : list (joined A) :=
  match matches (geom (snd ia)) polys with
  | [] => [mkjoined (fst ia) (snd ia) None]
  | js => map (fun j => mkjoined (fst ia) (snd ia) (Some j)) js
  end.

Definition sjoin {A : Type} (geom : A -> Point) (left : list A)
    (polys : list Polygon) : list (joined A) :=
  flat_map (sjoin_row geom polys) (combine (seq 0 (length left)) left).

(** *** ersem_nc_to_polygons.py *)

Section Ersem.

Context {F : Type} `{Number F}.

(** A row of [ersem_data], with the point built from its [lon] and [lat]. *)
Record ersem_row : Type := mkersem { ersem_point : Point; Total_P : F }.

(** The keys of [groupby(index_right)], sorted, each once; rows whose key
    is NaN belong to no group (pandas' default [dropna=True]). *)
Definition group_keys {A : Type} (js : list (joined A)) : list nat :=
  let present := flat_map (fun r => match index_right r with
                                    | Some j => [j]
                                    | None => []
                                    end) js in
  filter (fun k => existsb (Nat.eqb k) present)
         (seq 0 (S (fold_right Nat.max 0 present))).

Definition group {A : Type} (k : nat) (js : list (joined A)) : list A :=
  map left_row
      (filter (fun r => match index_right r with
                        | Some j => Nat.eqb j k
                        | None => false
                        end) js).

(** Lines 86-99 of [map_to_polygons]: the rows [(Polygon_ID, Average_P)]. *)
Definition map_to_polygons (fs : filesystem Polygon)
    (ersem_data : list ersem_row) (shapefile : string)
  : result (list (nat * F)) :=
  grid <- read_file fs shapefile ;;
  let joined := sjoin ersem_point ersem_data (gdf_geometry grid) in
  Ok (map (fun k => (k, nanmean (map Total_P (group k joined))))
          (group_keys joined)).

End Ersem.

(** *** extract_release_and_settlement_polys.py *)

(** A row of the result of [assign_polygons]. *)
Record assignment : Type := mkassignment {
  particleID : Z;
  Release_poly : value;
  Settlement_poly : value
}.

(** [gpd.GeoDataFrame({'particleID': ids, 'geometry': positions})] *)
Definition particle_frame (ids : list Z) (positions : list Point)
  : result (list (Z * Point)) :=
  if Nat.eqb (length ids) (length positions)
  then Ok (combine ids positions)
  else Err (ValueError "All arrays must be of the same length").

(** [joined[name]] for a name that is none of the left frame's columns nor
    [index_right]: the attribute column [name] of the right frame, NaN for a
    row without a match; a [KeyError] when the right frame has no such
    column. *)
Definition right_column {A : Type} (name : string) (grid : GeoDataFrame Polygon)
    (js : list (joined A)) : result (list value) :=
  match find (fun c => String.eqb (fst c) name) (gdf_columns grid) with
  | None => Err (KeyError name)
  | Some c =>
      Ok (map (fun r => match index_right r with
                        | Some j => nth j (snd c) VNaN
                        | None => VNaN
                        end) js)
  end.

(** [index_right.fillna('outside grid domain')] *)
Definition fillna_index_right (j : option nat) : value :=
  match j with
  | Some j => VInt (Z.of_nat j)
  | None => VStr "outside grid domain"
  end.

(** [pd.DataFrame({...})] of a list of [n] items and two columns of joined
    frames: the columns are aligned on the union of their labels, which has
    [n] entries only if no left row was matched twice. *)
Definition results_frame (ids : list Z) (release settlement : list value)
  : result (list assignment) :=
  if Nat.eqb (length release) (length ids) &&
     Nat.eqb (length settlement) (length ids)
  then Ok (map (fun t => mkassignment (fst (fst t)) (snd (fst t)) (snd t))
               (combine (combine ids release) settlement))
  else Err (ValueError "array length does not match index length").

Definition assign_polygons (fs : filesystem Polygon)
    (particle_ids : list Z) (first_positions last_positions : list Point)
    (shapefile : string) : result (list assignment) :=
  grid <- read_file fs shapefile ;;
  first_df <- particle_frame particle_ids first_positions ;;
  last_df <- particle_frame particle_ids last_positions ;;
  let first_joined := sjoin snd first_df (gdf_geometry grid) in
  let last_joined := sjoin snd last_df (gdf_geometry grid) in
  let settlement := map (fun r => fillna_index_right (index_right r)) last_joined in
  release <- right_column "Release_poly" grid first_joined ;;
  results_frame particle_ids release settlement.

End SpatialJoin.

Arguments matches {Point Polygon} within p polys.
Arguments mkjoined {A} _ _ _.
Arguments label {A} _.
Arguments left_row {A} _.
Arguments index_right {A} _.
Arguments sjoin_row {Point Polygon} within {A} geom polys ia.
Arguments sjoin {Point Polygon} within {A} geom left polys.
Arguments ersem_row Point F : clear implicits.
Arguments mkersem {Point F} _ _.
Arguments ersem_point {Point F} _.
Arguments Total_P {Point F} _.
Arguments map_to_polygons {Point Polygon} within {F _} fs ersem_data shapefile.
Arguments particle_frame {Point} ids positions.
Arguments right_column {Polygon A} name grid js.
Arguments assign_polygons {Point Polygon} within fs particle_ids
  first_positions last_positions shapefile.

(** ** NetCDF data

    Indexing an array out of its bounds raises [IndexError], an exception
    that the grid builder and the joins never meet; [outcome] extends
    [result] by it. *)

Inductive error : Type :=
| Exn (e : exn)
| IndexError.

Inductive outcome (A : Type) : Type :=
| Returns (a : A)
| Raises (e : error).

Arguments Returns {A} a.
Arguments Raises {A} e.

Definition lift {A : Type} (r : result A) : outcome A :=
  match r with
  | Ok a => Returns a
  | Err e => Raises (Exn e)
  end.

Definition obind {A B : Type} (r : outcome A) (k : A -> outcome B) : outcome B :=
  match r with
  | Returns a => k a
  | Raises e => Raises e
  end.

Notation "x <<- r ;; k" := (obind r (fun x => k))
  (at level 61, r at next level, right associativity).

(** A list comprehension whose body may raise: the elements are computed in
    order and the first exception ends it. *)
Fixpoint comprehension {A B : Type} (f : A -> outcome B) (l : list A)
  : outcome (list B) :=
  match l with
  | [] => Returns []
  | a :: l => b <<- f a ;; bs <<- comprehension f l ;; Returns (b :: bs)
  end.

(** A two-dimensional and a three-dimensional array: the shape and the
    items.  An item that netCDF4 masks, because it holds the variable's own
    fill value, is skipped by all that follows exactly as a NaN is, and is
    embedded as a NaN. *)
Record ndarray2 (F : Type) : Type := mkndarray2 {
  shape2 : nat * nat;
  item2 : nat -> nat -> F
}.

Record ndarray3 (F : Type) : Type := mkndarray3 {
  shape3 : nat * nat * nat;
  item3 : nat -> nat -> nat -> F
}.

Arguments mkndarray2 {F} _ _.
Arguments shape2 {F} _.
Arguments item2 {F} _ _ _.
Arguments mkndarray3 {F} _ _.
Arguments shape3 {F} _.
Arguments item3 {F} _ _ _ _.

(** [a[t, i]] *)
Definition getitem2 {F : Type} (a : ndarray2 F) (t i : nat) : outcome F :=
  if (t <? fst (shape2 a)) && (i <? snd (shape2 a))
  then Returns (item2 a t i)
  else Raises IndexError.

(** [a[-1, i]] *)
Definition getitem2_last {F : Type} (a : ndarray2 F) (i : nat) : outcome F :=
  if (0 <? fst (shape2 a)) && (i <? snd (shape2 a))
  then Returns (item2 a (fst (shape2 a) - 1) i)
  else Raises IndexError.

(** [a[time_indices, 0, :]]: the rows of the top layer at the given times *)
Definition getitem3_top {F : Type} (a : ndarray3 F) (time_indices : list nat)
  : outcome (list (list F)) :=
  let '(times, layers, nodes) := shape3 a in
  if (0 <? layers) && forallb (fun t => t <? times) time_indices
  then Returns (map (fun t => map (fun j => item3 a t 0 j) (seq 0 nodes))
                    time_indices)
  else Raises IndexError.

(** The files that [nc.Dataset] can open. *)
Definition nc_files (D : Type) : Type := string -> option D.

Definition Dataset {D : Type} (fs : nc_files D) (nc_file : string) : outcome D :=
  match fs nc_file with
  | Some dataset => Returns dataset
  | None => Raises (Exn (FileNotFound nc_file))
  end.

(** ** extract_release_and_settlement_polys.py: the particle file *)

(** A particle tracking file: the dimension [particles] and the variables
    [x(time, particles)] and [y(time, particles)]. *)
Record particle_dataset : Type := mkparticles {
  particles : nat;
  x_var : ndarray2 float;
  y_var : ndarray2 float
}.

Section Particles.

Variables Point Polygon : Type.
Variable within : Point -> Polygon -> bool.

(** [shapely.geometry.Point(x, y)] *)
Variable mkPoint : float -> float -> Point.

(** Lines 29-46 *)
Definition extract_particle_positions (fs : nc_files particle_dataset)
    (nc_file : string) : outcome (list Z * list Point * list Point) :=
  dataset <<- Dataset fs nc_file ;;
  let num_particles := particles dataset in
  let particle_ids := map Z.of_nat (seq 1 num_particles) in
  let x_positions := x_var dataset in
  let y_positions := y_var dataset in
  first_positions <<-
    comprehension (fun i => px <<- getitem2 x_positions 0 i ;;
                            py <<- getitem2 y_positions 0 i ;;
                            Returns (mkPoint px py))
                  (seq 0 num_particles) ;;
  last_positions <<-
    comprehension (fun i => px <<- getitem2_last x_positions i ;;
                            py <<- getitem2_last y_positions i ;;
                            Returns (mkPoint px py))
                  (seq 0 num_particles) ;;
  Returns (particle_ids, first_positions, last_positions).

(** Lines 73-77: the table that [process_nc_to_csv] writes. *)
Definition process_nc_to_csv (nc : nc_files particle_dataset)
    (fs : filesystem Polygon) (nc_file shapefile : string)
  : outcome (list assignment) :=
  positions <<- extract_particle_positions nc nc_file ;;
  let '(particle_ids, first_positions, last_positions) := positions in
  lift (assign_polygons within fs particle_ids first_positions last_positions
          shapefile).

End Particles.

Arguments extract_particle_positions {Point} mkPoint fs nc_file.
Arguments process_nc_to_csv {Point Polygon} within mkPoint nc fs nc_file shapefile.

(** ** ersem_nc_to_polygons.py: the model output *)

Section ErsemData.

Context {F : Type} `{Number F}.

(** An FVCOM-ERSEM output file: the variable [time] with its [units],
    [lon(node)] and [lat(node)], the four phytoplankton variables
    [(time, siglay, node)], and the [_FillValue] of [P1_c]. *)
Record ersem_dataset : Type := mkersem_dataset {
  time_var : list F;
  time_units : string;
  lon_var : list F;
  lat_var : list F;
  P1_c_var : ndarray3 F;
  P2_c_var : ndarray3 F;
  P3_c_var : ndarray3 F;
  P4_n_var : ndarray3 F;
  P1_c_FillValue : F
}.

(** Dates, compared by [<=], and [nc.num2date]. *)
Variable date : Type.
Variable date_leb : date -> date -> bool.
Variable num2date : F -> string -> date.

(** [np.where((time_dates >= start_time) & (time_dates <= end_time))[0]] *)
Definition where_in_range (time_dates : list date) (start_time end_time : date)
  : list nat :=
  map fst (filter (fun it => date_leb start_time (snd it) &&
                             date_leb (snd it) end_time)
                  (combine (seq 0 (length time_dates)) time_dates)).

(** [P[P == fill_value] = np.nan] *)
Definition mask_fill (fill_value : F) (P : list (list F)) : list (list F) :=
  map (map (fun v => if feq v fill_value then NaN else v)) P.

(** [np.nanmean(P, axis=0)] of an array with [nodes] columns *)
Definition nanmean_axis0 (nodes : nat) (P : list (list F)) : list F :=
  map (fun j => nanmean (map (fun row => nth j row NaN) P)) (seq 0 nodes).

(** The sum of two one-dimensional arrays, with numpy's broadcasting of an
    array of one element. *)
Definition add_arrays (a b : list F) : result (list F) :=
  if Nat.eqb (length a) (length b)
  then Ok (map (fun ab => fadd (fst ab) (snd ab)) (combine a b))
  else if Nat.eqb (length a) 1
  then Ok (map (fun y => fadd (hd NaN a) y) b)
  else if Nat.eqb (length b) 1
  then Ok (map (fun x => fadd x (hd NaN b)) a)
  else Err (ValueError "operands could not be broadcast together").

(** [pd.DataFrame({'lon': lon, 'lat': lat, 'Total_P': total_P})]: the rows
    [(lon, lat, Total_P)] *)
Definition ersem_frame (lon lat total_P : list F) : result (list (F * F * F)) :=
  if Nat.eqb (length lon) (length lat) && Nat.eqb (length lat) (length total_P)
  then Ok (combine (combine lon lat) total_P)
  else Err (ValueError "All arrays must be of the same length").

(** Lines 41-83 *)
Definition extract_and_average_ersem (fs : nc_files ersem_dataset)
    (nc_file : string) (start_time end_time : date)
  : outcome (list (F * F * F)) :=
  dataset <<- Dataset fs nc_file ;;
  let time_dates :=
    map (fun t => num2date t (time_units dataset)) (time_var dataset) in
  let time_indices := where_in_range time_dates start_time end_time in
  if Nat.eqb (length time_indices) 0
  then Raises (Exn (ValueError "No data found within the specified time range."))
  else
    let lon := lon_var dataset in
    let lat := lat_var dataset in
    P1_c <<- getitem3_top (P1_c_var dataset) time_indices ;;
    P2_c <<- getitem3_top (P2_c_var dataset) time_indices ;;
    P3_c <<- getitem3_top (P3_c_var dataset) time_indices ;;
    P4_c <<- getitem3_top (P4_n_var dataset) time_indices ;;
    let fill_value := P1_c_FillValue dataset in
    let nodes (a : ndarray3 F) := snd (shape3 a) in
    let P1_avg := nanmean_axis0 (nodes (P1_c_var dataset)) (mask_fill fill_value P1_c) in
    let P2_avg := nanmean_axis0 (nodes (P2_c_var dataset)) (mask_fill fill_value P2_c) in
    let P3_avg := nanmean_axis0 (nodes (P3_c_var dataset)) (mask_fill fill_value P3_c) in
    let P4_avg := nanmean_axis0 (nodes (P4_n_var dataset)) (mask_fill fill_value P4_c) in
    lift (s12 <- add_arrays P1_avg P2_avg ;;
          s123 <- add_arrays s12 P3_avg ;;
          total_P <- add_arrays s123 P4_avg ;;
          ersem_frame lon lat total_P).

Section Polygons.

Variables Point Polygon : Type.
Variable within : Point -> Polygon -> bool.

(** [gpd.points_from_xy], for one point *)
Variable points_from_xy : F -> F -> Point.

(** Lines 102-106: the table that [process_ersem_to_polygons] writes. *)
Definition process_ersem_to_polygons (nc : nc_files ersem_dataset)
    (fs : filesystem Polygon) (nc_file shapefile : string)
    (start_time end_time : date) : outcome (list (nat * F)) :=
  ersem_data <<- extract_and_average_ersem nc nc_file start_time end_time ;;
  lift (map_to_polygons within fs
          (map (fun r => mkersem (points_from_xy (fst (fst r)) (snd (fst r)))
                                 (snd r))
               ersem_data)
          shapefile).

End Polygons.

End ErsemData.

Arguments ersem_dataset F : clear implicits.
Arguments mkersem_dataset {F} _ _ _ _ _ _ _ _ _.
Arguments time_var {F} _.
Arguments time_units {F} _.
Arguments lon_var {F} _.
Arguments lat_var {F} _.
Arguments P1_c_var {F} _.
Arguments P2_c_var {F} _.
Arguments P3_c_var {F} _.
Arguments P4_n_var {F} _.
Arguments P1_c_FillValue {F} _.
Arguments where_in_range {date} date_leb time_dates start_time end_time.
Arguments extract_and_average_ersem {F _ date} date_leb num2date fs nc_file
  start_time end_time.
Arguments process_ersem_to_polygons {F _ date} date_leb num2date
  {Point Polygon} within points_from_xy nc fs nc_file shapefile
  start_time end_time.

(* ================================================================== *)
(** * Part II: notions and examples used in the statements            *)
(* ================================================================== *)

(** ** Rectangles *)

(** [r] lies inside [a]. *)
Definition rect_sub (a r : rect) : Prop :=
  (x0 a <= x0 r /\ x1 r <= x1 a /\ y0 a <= y0 r /\ y1 r <= y1 a)%Z.

(** ** Example grids *)

Section GridExamples.

Local Open Scope float_scope.

(** A land mask covering the eastern half of the unit cell and beyond. *)
Definition coast_land : GeoDataFrame geometry :=
  mkGeoDataFrame [Geo.box 0.5 0 2 1] [].

Definition coast_fs : filesystem geometry :=
  fun path => if String.eqb path "mask.shp" then Some coast_land else None.

(** A land mask far from the example box of the specification. *)
Definition far_land : GeoDataFrame geometry :=
  mkGeoDataFrame [Geo.box 0 0 1 1] [].

Definition far_fs : filesystem geometry :=
  fun path => if String.eqb path "mask.shp" then Some far_land else None.


End GridExamples.



(** ** Joins without labels *)

Section JoinView.

Variables Point Polygon : Type.
Variable within : Point -> Polygon -> bool.

(** The rows of a join without their labels: the left row and the position
    of the matching polygon. *)
Definition pairs {A : Type} (js : list (joined A)) : list (A * option nat) :=
  map (fun r => (left_row r, index_right r)) js.

Definition join_pairs {A : Type} (geom : A -> Point) (polys : list Polygon)
    (a : A) : list (A * option nat) :=
  match matches within (geom a) polys with
  | [] => [(a, None)]
  | js => map (fun j => (a, Some j)) js
  end.

(** The keys present in a list of pairs. *)
Definition present {A : Type} (ps : list (A * option nat)) : list nat :=
  flat_map (fun p => match snd p with
                     | Some j => [j]
                     | None => []
                     end) ps.

Definition members {A : Type} (k : nat) (ps : list (A * option nat)) : list A :=
  map fst (filter (fun p => match snd p with
                            | Some j => Nat.eqb j k
                            | None => false
                            end) ps).

Definition keys_of (present : list nat) : list nat :=
  filter (fun k => existsb (Nat.eqb k) present)
         (seq 0 (S (fold_right Nat.max 0 present))).

Section ErsemView.

Context {F : Type} `{Number F}.

(** [map_to_polygons], computed from the pairs of the join. *)
Definition polygon_rows (ps : list (ersem_row Point F * option nat))
  : list (nat * F) :=
  map (fun k => (k, nanmean (map Total_P (members k ps))))
      (keys_of (present ps)).

End ErsemView.

End JoinView.

Arguments join_pairs {Point Polygon} within {A} geom polys a.
Arguments polygon_rows {Point F _} ps.

(** ** Example joins *)

Section JoinExamples.

Local Open Scope float_scope.

(** Points on a line and intervals as polygons: a point is within an
    interval when it lies strictly between its ends. *)
Definition within_interval (p : Z) (ab : Z * Z) : bool :=
  ((fst ab <? p) && (p <? snd ab))%Z.

Definition intervals : GeoDataFrame (Z * Z) :=
  mkGeoDataFrame [(0, 5)%Z; (20, 30)%Z] [].

Definition intervals_fs : filesystem (Z * Z) :=
  fun path => if String.eqb path "grid.shp" then Some intervals else None.

Definition example_ersem : list (ersem_row Z float) :=
  [mkersem 1%Z 2; mkersem 10%Z 3; mkersem 4%Z 6].

End JoinExamples.

(** ** Columns in exact arithmetic *)

(** The values present in a column. *)
Definition values (col : list xreal) : list R :=
  flat_map (fun x => match x with
                     | Some v => [v]
                     | None => []
                     end) col.

Definition Rsum (l : list R) : R := fold_right Rplus 0%R l.

(** ** Example frames *)

Section ScoreExamples.

Local Open Scope float_scope.



End ScoreExamples.

(** ** Points of a region *)

(** The point [(px, py)], in units of [2^-1074], lies in the closed
    rectangle [r]. *)
Definition in_rect (r : rect) (px py : Z) : bool :=
  ((x0 r <=? px) && (px <=? x1 r) && (y0 r <=? py) && (py <=? y1 r))%Z.

Definition in_region (g : geometry) (px py : Z) : bool :=
  existsb (fun r => in_rect r px py) g.

(** A land mask covering the unit cell and its surroundings. *)
Definition inland : GeoDataFrame geometry :=
  mkGeoDataFrame [Geo.box (-1) (-1) 2 2] [].

Definition inland_fs : filesystem geometry :=
  fun path => if String.eqb path "mask.shp" then Some inland else None.

(** ** Points within a polygon *)

Section Inside.

Variables Point Polygon : Type.
Variable within : Point -> Polygon -> bool.

(** The point [p] is within the polygon at position [k]. *)
Definition inside (polys : list Polygon) (k : nat) (p : Point) : bool :=
  match nth_error polys k with
  | Some poly => within p poly
  | None => false
  end.

End Inside.

Arguments inside {Point Polygon} within polys k p.

(** ** More example joins *)

(** Data points in exact arithmetic, one of them without a value. *)
Definition example_ersem_exact : list (ersem_row Z xreal) :=
  [mkersem 1%Z (Some 2%R); mkersem 10%Z (Some 3%R); mkersem 4%Z None;
   mkersem 3%Z (Some 6%R)].

(** A grid file that names its polygons in a [Release_poly] attribute. *)
Definition named_intervals : GeoDataFrame (Z * Z) :=
  mkGeoDataFrame [(0, 5)%Z; (20, 30)%Z]
                 [("Release_poly"%string, [VInt 7; VInt 9])].

(** The same with a second polygon that overlaps the first. *)
Definition overlapping_intervals : GeoDataFrame (Z * Z) :=
  mkGeoDataFrame [(0, 5)%Z; (3, 30)%Z]
                 [("Release_poly"%string, [VInt 7; VInt 9])].

Definition named_fs : filesystem (Z * Z) :=
  fun path => if String.eqb path "grid.shp" then Some named_intervals else None.

Definition overlapping_fs : filesystem (Z * Z) :=
  fun path => if String.eqb path "grid.shp" then Some overlapping_intervals
              else None.

(** ** Sums that skip NaN *)


(** ** Merged frames *)

(** The value a table holds for a key: that of the first row with an equal
    key. *)
Definition lookup {V : Type} (t : table V) (k : option Z) : option V :=
  option_map snd (find (fun r => key_eqb k (fst r)) t).

Definition lookup_or {V : Type} (missing : V) (t : table V) (k : option Z) : V :=
  match lookup t k with
  | Some v => v
  | None => missing
  end.

(** A grid file with two cells and no attribute: polygons only. *)
Definition plain_grid : GeoDataFrame geometry :=
  mkGeoDataFrame [Geo.box 0 0 1 1; Geo.box 1 0 2 1] [].

(** The same grid with its cells numbered in a [Cell ID] attribute. *)
Definition numbered_grid : GeoDataFrame geometry :=
  mkGeoDataFrame [Geo.box 0 0 1 1; Geo.box 1 0 2 1]
                 [("Cell ID"%string, [VInt 0; VInt 1])].


(** A structure file without structures. *)
Definition no_structures : GeoDataFrame geometry := mkGeoDataFrame [] [].

Section CellRow.

Context {F : Type} `{Number F}.
Variable Label : Type.

(** The row of a cell when no key is repeated: the cell's [Node] is its
    position when the in-degree file lists it and NaN otherwise, and every
    other metric is looked up under that [Node]. *)
Definition cell_row
    (in_degree out_degree betweenness food_av self_recruitment : table F)
    (community : table Label) (flags : table bool) (ig : nat * geometry)
  : row F Label :=
  let cell := Some (Z.of_nat (fst ig)) in
  let node := match lookup in_degree cell with
              | Some _ => cell
              | None => None
              end in
  mkrow (fst ig) (snd ig) node
        (lookup_or NaN in_degree cell)
        (lookup_or NaN out_degree node)
        (lookup_or NaN betweenness node)
        (lookup_or NaN food_av node)
        (lookup_or NaN self_recruitment node)
        (lookup community node)
        (lookup flags cell).

End CellRow.

Arguments cell_row {F _ Label} in_degree out_degree betweenness food_av
  self_recruitment community flags ig.

(** A grid file with a [Cell ID] attribute and no cell. *)
Definition empty_grid : GeoDataFrame geometry :=
  mkGeoDataFrame [] [("Cell ID"%string, [])].

(** [l] lists the elements of [base] in order, each at least once, when
    seen through [f]. *)
Definition expands {A B : Type} (f : B -> A) (base : list A) (l : list B) : Prop :=
  exists times : list nat,
    length times = length base /\
    Forall (fun t => 1 <= t) times /\
    map f l = flat_map (fun ct => repeat (fst ct) (snd ct)) (combine base times).

(** ** Particle files *)

(** The particle file has at least one time step, and a column in [x] and
    in [y] for every particle. *)
Definition tracked (dataset : particle_dataset) : Prop :=
  0 < fst (shape2 (x_var dataset)) /\ 0 < fst (shape2 (y_var dataset)) /\
  particles dataset <= snd (shape2 (x_var dataset)) /\
  particles dataset <= snd (shape2 (y_var dataset)).

(** Two particles followed over three time steps on a line. *)
Definition example_track : particle_dataset :=
  mkparticles 2
    (mkndarray2 (3, 2) (fun t i => match t, i with
                                   | 0, 0 => 1 | 0, _ => 25
                                   | 2, 0 => 21 | 2, _ => 7
                                   | _, _ => 12
                                   end%float))
    (mkndarray2 (3, 2) (fun _ _ => 0%float)).

Definition example_nc : nc_files particle_dataset :=
  fun path => if String.eqb path "particles.nc" then Some example_track else None.

(** A particle file without a time step. *)
Definition empty_track : particle_dataset :=
  mkparticles 2 (mkndarray2 (0, 2) (fun _ _ => 0%float))
                (mkndarray2 (0, 2) (fun _ _ => 0%float)).

Definition empty_nc : nc_files particle_dataset :=
  fun path => if String.eqb path "particles.nc" then Some empty_track else None.

(** Points on a line: the [x] coordinate, rounded up to an integer. *)
Definition line_point (x y : float) : Z :=
  match F64.ceil x with
  | Some z => z
  | None => 0%Z
  end.

(** ** Model output files *)

Section ErsemNotions.

Context {F : Type} `{Number F}.

(** The file is laid out as the script's header requires: [lon] and [lat]
    have one entry per node, and the four variables have one row per time
    stamp, at least one layer and one column per node. *)
Definition laid_out (dataset : ersem_dataset F) : Prop :=
  length (lat_var dataset) = length (lon_var dataset) /\
  forall P, In P [P1_c_var dataset; P2_c_var dataset; P3_c_var dataset;
                  P4_n_var dataset] ->
    fst (fst (shape3 P)) = length (time_var dataset) /\
    0 < snd (fst (shape3 P)) /\
    snd (shape3 P) = length (lon_var dataset).

(** The mean over the given time steps of the top layer of [P] at node [j],
    the entries that equal the fill value or are NaN left out. *)
Definition node_mean (fill_value : F) (P : ndarray3 F) (time_indices : list nat)
    (j : nat) : F :=
  nanmean (map (fun t => if feq (item3 P t 0 j) fill_value then NaN
                         else item3 P t 0 j)
               time_indices).

Definition node_total (dataset : ersem_dataset F) (time_indices : list nat)
    (j : nat) : F :=
  let mean P := node_mean (P1_c_FillValue dataset) P time_indices j in
  fadd (fadd (fadd (mean (P1_c_var dataset)) (mean (P2_c_var dataset)))
             (mean (P3_c_var dataset)))
       (mean (P4_n_var dataset)).

End ErsemNotions.

(** An entry that is neither NaN nor the fill value. *)
Definition valid {F : Type} `{Number F} (fill_value v : F) : bool :=
  negb (isnan v) && negb (feq v fill_value).

(** Days, as numbers, for dates. *)
Definition day_of (t : float) (units : string) : Z :=
  match F64.ceil t with
  | Some z => z
  | None => 0%Z
  end.

(** Three nodes on a line, three daily time stamps and two layers; the
    four variables hold the same values: at the surface the number of the
    day plus that of the node, and the fill value at node 2 on day 1. *)
Definition example_P : ndarray3 float :=
  mkndarray3 (3, 2, 3)
    (fun t s j => match s with
                  | 0 => if Nat.eqb t 1 && Nat.eqb j 2 then (-999)%float
                         else F64.of_Z (Z.of_nat (t + j))
                  | _ => 100%float
                  end).

Definition example_output : ersem_dataset float :=
  mkersem_dataset [0; 1; 2]%float "days since 2024-01-01"
                  [1; 10; 4]%float [0; 0; 0]%float
                  example_P example_P example_P example_P (-999)%float.

Definition example_output_nc : nc_files (ersem_dataset float) :=
  fun path => if String.eqb path "ersem_output.nc" then Some example_output
              else None.

(** The same file with other values below the surface and on day 0. *)
Definition other_P : ndarray3 float :=
  mkndarray3 (3, 2, 3)
    (fun t s j => match s, t with
                  | 0, S _ => if Nat.eqb t 1 && Nat.eqb j 2 then (-999)%float
                              else F64.of_Z (Z.of_nat (t + j))
                  | _, _ => 7%float
                  end).

Definition other_output : ersem_dataset float :=
  mkersem_dataset [0; 1; 2]%float "days since 2024-01-01"
                  [1; 10; 4]%float [0; 0; 0]%float
                  other_P other_P other_P other_P (-999)%float.

Definition other_output_nc : nc_files (ersem_dataset float) :=
  fun path => if String.eqb path "ersem_output.nc" then Some other_output
              else None.

(** One node and one time stamp, in exact arithmetic: [P4_n] holds only
    the fill value. *)
Definition filled_output : ersem_dataset xreal :=
  mkersem_dataset [Some 0%R] "days since 2024-01-01" [Some 1%R] [Some 2%R]
    (mkndarray3 (1, 1, 1) (fun _ _ _ => Some 5%R))
    (mkndarray3 (1, 1, 1) (fun _ _ _ => Some 6%R))
    (mkndarray3 (1, 1, 1) (fun _ _ _ => Some 7%R))
    (mkndarray3 (1, 1, 1) (fun _ _ _ => Some (-999)%R))
    (Some (-999)%R).

Definition filled_output_nc : nc_files (ersem_dataset xreal) :=
  fun path => if String.eqb path "ersem_output.nc" then Some filled_output
              else None.

(* ================================================================== *)
(** * Part III: properties                                            *)
(* ================================================================== *)

(** ** Facts on the rectangle model *)

Module GeoFacts.

Import Geo.
Local Open Scope Z_scope.


Ltac bools :=
  repeat match goal with
  | H : _ && _ = true |- _ => apply andb_true_iff in H; destruct H
  | H : _ && _ = false |- _ => apply andb_false_iff in H
  | H : (_ <? _) = true |- _ => apply Z.ltb_lt in H
  | H : (_ <? _) = false |- _ => apply Z.ltb_ge in H
  | H : (_ <=? _) = true |- _ => apply Z.leb_le in H
  | H : (_ <=? _) = false |- _ => apply Z.leb_gt in H
  end.

Lemma sub_refl (a : rect) : rect_sub a a.
Proof. unfold rect_sub; lia. Qed.

Lemma sub_trans (a b c : rect) : rect_sub a b -> rect_sub b c -> rect_sub a c.
Proof. unfold rect_sub; lia. Qed.




Lemma relint_meets_meets (a b : rect) :
  relint_meets a b = true -> rect_meets a b = true.
Proof.
  unfold relint_meets. intros H. apply andb_true_iff in H.
  destruct H as [H _]. apply andb_true_iff in H. tauto.
Qed.

Lemma rect_diff_sub (a b r : rect) : In r (rect_diff a b) -> rect_sub a r.
Proof.
  unfold rect_diff, rect_sub.
  destruct (relint_meets a b).
  - rewrite !in_app_iff.
    destruct (x0 a <? x0 b) eqn:E1, (x1 b <? x1 a) eqn:E2,
             (y0 a <? y0 b) eqn:E3, (y1 b <? y1 a) eqn:E4;
      simpl; intros H; bools;
      repeat match goal with
      | H : _ \/ _ |- _ => destruct H
      | H : False |- _ => destruct H
      | H : mkrect _ _ _ _ = _ |- _ => rewrite <- H; clear H; simpl
      end; lia.
  - simpl. intros [<- | []]. lia.
Qed.


Lemma difference_cons (g : geometry) (b : rect) (m : geometry) :
  difference g (b :: m) = difference (flat_map (fun a => rect_diff a b) g) m.
Proof. reflexivity. Qed.

Lemma difference_sub (m g : geometry) (r : rect) :
  In r (difference g m) -> exists a, In a g /\ rect_sub a r.
Proof.
  revert g. induction m as [|b m IH]; intros g H.
  - exists r. split; [exact H | apply sub_refl].
  - rewrite difference_cons in H. apply IH in H.
    destruct H as (a1 & Ha1 & Hs). apply in_flat_map in Ha1.
    destruct Ha1 as (a & Ha & Hd). exists a. split; [exact Ha|].
    eapply sub_trans; [eapply rect_diff_sub; eassumption | exact Hs].
Qed.




Lemma flat_map_rect_diff_id (g : geometry) (b : rect) :
  (forall a, In a g -> rect_meets a b = false) ->
  flat_map (fun a => rect_diff a b) g = g.
Proof.
  induction g as [|a g IH]; intros H; [reflexivity|].
  simpl. rewrite IH by (intros; apply H; now right).
  unfold rect_diff. destruct (relint_meets a b) eqn:E; [|reflexivity].
  apply relint_meets_meets in E. rewrite H in E by now left. discriminate.
Qed.

Lemma intersects_cons_false (g : geometry) (b : rect) (m : geometry) :
  intersects g (b :: m) = false ->
  (forall a, In a g -> rect_meets a b = false) /\ intersects g m = false.
Proof.
  unfold intersects. induction g as [|a g IH]; simpl; intros H.
  - split; [intros a []|reflexivity].
  - apply orb_false_iff in H. destruct H as [H1 H2].
    apply orb_false_iff in H1. destruct H1 as [H1 H3].
    destruct (IH H2) as [IH1 IH2]. split.
    + intros a' [<- | Ha]; [exact H1 | now apply IH1].
    + now rewrite H3, IH2.
Qed.

(** A region that does not meet [m] is left whole by the difference. *)
Lemma difference_disjoint (m g : geometry) :
  intersects g m = false -> difference g m = g.
Proof.
  revert g. induction m as [|b m IH]; intros g H; [reflexivity|].
  apply intersects_cons_false in H. destruct H as [H1 H2].
  rewrite difference_cons, flat_map_rect_diff_id by exact H1. now apply IH.
Qed.

Lemma within_disjoint (g m : geometry) :
  intersects g m = false -> within g m = false.
Proof.
  intros H. unfold within. rewrite difference_disjoint by exact H.
  now destruct g.
Qed.


End GeoFacts.

(** ** generate_grid *)


Lemma clip_to_ocean_in (land : geometry) (grid : list geometry) (p : geometry) :
  In p (clip_to_ocean land grid) ->
  Geo.is_empty p = false /\
  exists c, In c grid /\ Geo.within c land = false /\ p = Geo.difference c land.
Proof.
  unfold clip_to_ocean. intros H. apply filter_In in H. destruct H as [H Hne].
  apply in_map_iff in H. destruct H as (c & <- & Hc).
  apply filter_In in Hc. destruct Hc as [Hc Hw].
  split; [now apply negb_true_iff in Hne|].
  exists c. repeat split; [exact Hc | now apply negb_true_iff in Hw].
Qed.

Lemma clip_to_ocean_disjoint (land : geometry) (grid : list geometry) :
  (forall c, In c grid -> Geo.is_empty c = false /\ Geo.intersects c land = false) ->
  clip_to_ocean land grid = grid.
Proof.
  unfold clip_to_ocean. induction grid as [|c grid IH]; intros H; [reflexivity|].
  destruct (H c (or_introl eq_refl)) as [Hne Hd].
  simpl. rewrite (GeoFacts.within_disjoint _ _ Hd). simpl.
  rewrite (GeoFacts.difference_disjoint _ _ Hd), Hne. simpl.
  f_equal. apply IH. intros c' Hc'. apply H. now right.
Qed.

Lemma read_file_some {G : Type} (fs : filesystem G) (path : string)
    (gdf : GeoDataFrame G) :
  fs path = Some gdf -> read_file fs path = Ok gdf.
Proof. unfold read_file. now intros ->. Qed.








Lemma flat_map_nil_r {A B C : Type} (f : A -> B -> C) (l : list A) :
  flat_map (fun a => map (f a) []) l = [].
Proof. induction l as [|a l IH]; [reflexivity | exact IH]. Qed.

(** C6, as the code has it: when the lattice has no cell (either range of
    origins is empty) and the land mask can be read, [generate_grid] raises
    nothing and returns the empty grid. *)
Theorem generate_grid_zero_cells
    (fs : filesystem geometry) (min_lat max_lat min_lon max_lon cell_size_km : float)
    (gebco_mask_shp : string) (land_mask : GeoDataFrame geometry)
    (lat_steps lon_steps : list float) :
  fs gebco_mask_shp = Some land_mask ->
  arange min_lat max_lat (cell_size_km / 111.0) = Ok lat_steps ->
  arange min_lon max_lon (cell_size_km / 111.0) = Ok lon_steps ->
  lat_steps = [] \/ lon_steps = [] ->
  generate_grid fs min_lat max_lat min_lon max_lon cell_size_km gebco_mask_shp
    = Ok [].
Proof.
  intros Hfs Hlat Hlon Hnil. unfold generate_grid, grid_cells.
  rewrite Hlat, Hlon. simpl. rewrite (read_file_some _ _ _ Hfs). simpl.
  destruct Hnil as [-> | ->]; [reflexivity|].
  now rewrite flat_map_nil_r.
Qed.

Lemma generate_grid_zero_cells_witness :
  generate_grid far_fs 50 50 (-2) (-1.8) 11.1 "mask.shp" = Ok [].
Proof.
  apply (generate_grid_zero_cells far_fs 50 50 (-2) (-1.8) 11.1 "mask.shp"
           far_land [] [(-2)%float; (-1.9)%float]).
  - reflexivity.
  - vm_compute. reflexivity.
  - vm_compute. reflexivity.
  - left. reflexivity.
Defined.

(** C6, as stated, fails: a box of zero height yields no lattice cell, and
    [generate_grid] returns the empty grid instead of an error. *)
Lemma degenerate_box_returns_empty_grid :
  grid_cells 50 50 (-2) (-1.8) 11.1 = Ok [] /\
  generate_grid far_fs 50 50 (-2) (-1.8) 11.1 "mask.shp" = Ok [].
Proof. vm_compute. split; reflexivity. Qed.

(** A cell size larger than the box does not empty the lattice: one cell,
    larger than the box, is left. *)
Lemma oversized_cell_yields_one_cell :
  grid_cells 50 50.2 (-2) (-1.8) 999 = Ok [Geo.box (-2) 50 7 59].
Proof. vm_compute. reflexivity. Qed.

(** ** generate_grid: the lattice and the clipping *)

(** X1: a cell size that is zero in degrees ([cell_size_km / 111.0] is 0, as
    for a cell size of 0 km) makes [generate_grid] raise [ZeroDivisionError]
    when it computes the latitudes, before the land mask is read. *)
Theorem generate_grid_zero_cell_size
    (fs : filesystem geometry) (min_lat max_lat min_lon max_lon cell_size_km : float)
    (gebco_mask_shp : string) :
  PrimFloat.eqb (cell_size_km / 111.0) 0 = true ->
  generate_grid fs min_lat max_lat min_lon max_lon cell_size_km gebco_mask_shp
    = Err ZeroDivisionError.
Proof.
  intros Hzero. unfold generate_grid, grid_cells, arange, arange_length.
  rewrite Hzero. reflexivity.
Qed.

Lemma generate_grid_zero_cell_size_witness :
  generate_grid far_fs 50 50.2 (-2) (-1.8) 0 "nowhere.shp" = Err ZeroDivisionError.
Proof.
  apply (generate_grid_zero_cell_size far_fs 50 50.2 (-2) (-1.8) 0 "nowhere.shp").
  reflexivity.
Defined.

Lemma nth_error_flat_map_map {A B C : Type} (f : A -> B -> C)
    (l1 : list A) (l2 : list B) (i j : nat) (a : A) (b : B) :
  nth_error l1 i = Some a -> nth_error l2 j = Some b ->
  nth_error (flat_map (fun a => map (f a) l2) l1) (i * length l2 + j)
    = Some (f a b).
Proof.
  revert i. induction l1 as [|a' l1 IH]; intros i Ha Hb.
  - now destruct i.
  - destruct i as [|i]; simpl in *.
    + injection Ha as ->.
      rewrite nth_error_app1
        by (rewrite length_map; apply nth_error_Some; congruence).
      now apply map_nth_error.
    + rewrite nth_error_app2 by (rewrite length_map; lia).
      rewrite length_map.
      replace (length l2 + i * length l2 + j - length l2)
        with (i * length l2 + j) by lia.
      now apply IH.
Qed.

Lemma length_flat_map_map {A B C : Type} (f : A -> B -> C)
    (l1 : list A) (l2 : list B) :
  length (flat_map (fun a => map (f a) l2) l1) = length l1 * length l2.
Proof.
  induction l1 as [|a l1 IH]; [reflexivity|].
  simpl. now rewrite length_app, length_map, IH.
Qed.

(** X2: the lattice of [generate_grid] in row-major order: with [lat_steps]
    and [lon_steps] the two ranges of origins, there are [len(lat_steps) *
    len(lon_steps)] cells, and the cell at position [i * len(lon_steps) + j]
    is the rectangle from [(lon_j, lat_i)] to [(lon_j + cell_size_deg, lat_i +
    cell_size_deg)]. *)
Theorem grid_cells_row_major
    (min_lat max_lat min_lon max_lon cell_size_km : float)
    (lat_steps lon_steps : list float) :
  arange min_lat max_lat (cell_size_km / 111.0) = Ok lat_steps ->
  arange min_lon max_lon (cell_size_km / 111.0) = Ok lon_steps ->
  exists cells,
    grid_cells min_lat max_lat min_lon max_lon cell_size_km = Ok cells /\
    length cells = length lat_steps * length lon_steps /\
    forall i j lat lon,
      nth_error lat_steps i = Some lat -> nth_error lon_steps j = Some lon ->
      nth_error cells (i * length lon_steps + j) =
        Some (Geo.box lon lat (lon + cell_size_km / 111.0)%float
                              (lat + cell_size_km / 111.0)%float).
Proof.
  intros Hlat Hlon. unfold grid_cells. rewrite Hlat, Hlon. simpl.
  eexists. split; [reflexivity|]. split.
  - apply length_flat_map_map.
  - intros i j lat lon Hi Hj.
    exact (nth_error_flat_map_map
             (fun lat lon => Geo.box lon lat (lon + cell_size_km / 111.0)%float
                                             (lat + cell_size_km / 111.0)%float)
             lat_steps lon_steps i j lat lon Hi Hj).
Qed.

Lemma grid_cells_row_major_witness :
  exists cells,
    grid_cells 50 50.2 (-2) (-1.8) 11.1 = Ok cells /\
    length cells = length [50; 50.1; 50.2]%float * length [-2; -1.9]%float /\
    forall i j lat lon,
      nth_error [50; 50.1; 50.2]%float i = Some lat ->
      nth_error [-2; -1.9]%float j = Some lon ->
      nth_error cells (i * length [-2; -1.9]%float + j) =
        Some (Geo.box lon lat (lon + 11.1 / 111.0)%float
                              (lat + 11.1 / 111.0)%float).
Proof.
  apply (grid_cells_row_major 50 50.2 (-2) (-1.8) 11.1).
  - vm_compute. reflexivity.
  - vm_compute. reflexivity.
Defined.

Lemma grid_cells_boxes
    (min_lat max_lat min_lon max_lon cell_size_km : float) (cells : list geometry) :
  grid_cells min_lat max_lat min_lon max_lon cell_size_km = Ok cells ->
  forall c, In c cells -> Geo.is_empty c = false.
Proof.
  unfold grid_cells. intros H c Hc.
  destruct (arange min_lat max_lat (cell_size_km / 111.0)) as [lats|]; [|discriminate].
  destruct (arange min_lon max_lon (cell_size_km / 111.0)) as [lons|]; [|discriminate].
  simpl in H. injection H as <-.
  apply in_flat_map in Hc. destruct Hc as (lat & _ & Hc).
  apply in_map_iff in Hc. destruct Hc as (lon & <- & _). reflexivity.
Qed.

(** X3: when no lattice cell meets the land mask, [generate_grid] returns the
    lattice as it is: every cell, unchanged, in the order of generation. *)
Theorem generate_grid_open_sea
    (fs : filesystem geometry) (min_lat max_lat min_lon max_lon cell_size_km : float)
    (gebco_mask_shp : string) (land_mask : GeoDataFrame geometry)
    (cells : list geometry) :
  fs gebco_mask_shp = Some land_mask ->
  grid_cells min_lat max_lat min_lon max_lon cell_size_km = Ok cells ->
  (forall c, In c cells ->
     Geo.intersects c (Geo.unary_union (gdf_geometry land_mask)) = false) ->
  generate_grid fs min_lat max_lat min_lon max_lon cell_size_km gebco_mask_shp
    = Ok cells.
Proof.
  intros Hfs Hcells Hsea. unfold generate_grid. rewrite Hcells. simpl.
  rewrite (read_file_some _ _ _ Hfs). simpl. f_equal.
  apply clip_to_ocean_disjoint. intros c Hc. split.
  - eapply grid_cells_boxes; eassumption.
  - now apply Hsea.
Qed.

Lemma generate_grid_open_sea_witness :
  generate_grid far_fs 10 12 10 11 111 "mask.shp"
    = Ok [Geo.box 10 10 11 11; Geo.box 10 11 11 12].
Proof.
  apply (generate_grid_open_sea far_fs 10 12 10 11 111 "mask.shp" far_land).
  - reflexivity.
  - vm_compute. reflexivity.
  - apply Forall_forall.
    repeat (apply Forall_cons; [vm_compute; reflexivity|]). apply Forall_nil.
Defined.

Lemma clip_to_ocean_all_land (land : geometry) (grid : list geometry) :
  (forall c, In c grid -> Geo.within c land = true) ->
  clip_to_ocean land grid = [].
Proof.
  unfold clip_to_ocean. induction grid as [|c grid IH]; intros H; [reflexivity|].
  simpl. rewrite (H c (or_introl eq_refl)). simpl.
  apply IH. intros c' Hc'. apply H. now right.
Qed.

(** X4: when every lattice cell is within the land mask, [generate_grid]
    returns an empty grid, and raises nothing. *)
Theorem generate_grid_all_land
    (fs : filesystem geometry) (min_lat max_lat min_lon max_lon cell_size_km : float)
    (gebco_mask_shp : string) (land_mask : GeoDataFrame geometry)
    (cells : list geometry) :
  fs gebco_mask_shp = Some land_mask ->
  grid_cells min_lat max_lat min_lon max_lon cell_size_km = Ok cells ->
  (forall c, In c cells ->
     Geo.within c (Geo.unary_union (gdf_geometry land_mask)) = true) ->
  generate_grid fs min_lat max_lat min_lon max_lon cell_size_km gebco_mask_shp
    = Ok [].
Proof.
  intros Hfs Hcells Hland. unfold generate_grid. rewrite Hcells. simpl.
  rewrite (read_file_some _ _ _ Hfs). simpl. f_equal.
  now apply clip_to_ocean_all_land.
Qed.

Lemma generate_grid_all_land_witness :
  generate_grid inland_fs 0 1 0 1 111 "mask.shp" = Ok [].
Proof.
  apply (generate_grid_all_land inland_fs 0 1 0 1 111 "mask.shp" inland
           [Geo.box 0 0 1 1]).
  - reflexivity.
  - vm_compute. reflexivity.
  - apply Forall_forall.
    repeat (apply Forall_cons; [vm_compute; reflexivity|]). apply Forall_nil.
Defined.

Module CoverFacts.

Import Geo.
Local Open Scope Z_scope.

Lemma in_rect_spec (r : rect) (px py : Z) :
  in_rect r px py = true <->
  x0 r <= px <= x1 r /\ y0 r <= py <= y1 r.
Proof.
  unfold in_rect. rewrite !andb_true_iff, !Z.leb_le. tauto.
Qed.

Lemma in_region_spec (g : geometry) (px py : Z) :
  in_region g px py = true <-> exists r, In r g /\ in_rect r px py = true.
Proof. unfold in_region. apply existsb_exists. Qed.

Lemma in_rect_sub (a r : rect) (px py : Z) :
  rect_sub a r -> in_rect r px py = true -> in_rect a px py = true.
Proof.
  unfold rect_sub. rewrite !in_rect_spec. lia.
Qed.




(** A point of [g \ m] is a point of [g]. *)
Lemma difference_inside (m g : geometry) (px py : Z) :
  in_region (difference g m) px py = true -> in_region g px py = true.
Proof.
  intros H. apply in_region_spec in H. destruct H as (r & Hr & Hp).
  apply GeoFacts.difference_sub in Hr. destruct Hr as (a & Ha & Hs).
  apply in_region_spec. exists a. split; [exact Ha|].
  eapply in_rect_sub; eassumption.
Qed.


End CoverFacts.




(** X6: every polygon that [generate_grid] returns is what the land mask
    leaves of one lattice cell that is not within the land, and all its points
    are points of that cell. *)
Theorem generate_grid_inside_lattice
    (fs : filesystem geometry) (min_lat max_lat min_lon max_lon cell_size_km : float)
    (gebco_mask_shp : string) (land_mask : GeoDataFrame geometry)
    (cells grid : list geometry) (p : geometry) :
  fs gebco_mask_shp = Some land_mask ->
  grid_cells min_lat max_lat min_lon max_lon cell_size_km = Ok cells ->
  generate_grid fs min_lat max_lat min_lon max_lon cell_size_km gebco_mask_shp
    = Ok grid ->
  In p grid ->
  exists c, In c cells /\
    Geo.within c (Geo.unary_union (gdf_geometry land_mask)) = false /\
    p = Geo.difference c (Geo.unary_union (gdf_geometry land_mask)) /\
    forall px py, in_region p px py = true -> in_region c px py = true.
Proof.
  intros Hfs Hcells Hgen Hp. unfold generate_grid in Hgen.
  rewrite Hcells in Hgen. simpl in Hgen.
  rewrite (read_file_some _ _ _ Hfs) in Hgen. simpl in Hgen.
  injection Hgen as <-.
  apply clip_to_ocean_in in Hp. destruct Hp as (_ & c & Hc & Hw & ->).
  exists c. repeat split; [exact Hc | exact Hw |].
  intros px py. apply CoverFacts.difference_inside.
Qed.

Lemma generate_grid_inside_lattice_witness :
  exists c, In c [Geo.box 0 0 1 1] /\
    Geo.within c (Geo.unary_union (gdf_geometry coast_land)) = false /\
    Geo.box 0 0 0.5 1 = Geo.difference c (Geo.unary_union (gdf_geometry coast_land)) /\
    forall px py, in_region (Geo.box 0 0 0.5 1) px py = true ->
                  in_region c px py = true.
Proof.
  apply (generate_grid_inside_lattice coast_fs 0 1 0 1 111 "mask.shp" coast_land
           [Geo.box 0 0 1 1] [Geo.box 0 0 0.5 1]).
  - reflexivity.
  - vm_compute. reflexivity.
  - vm_compute. reflexivity.
  - left. reflexivity.
Defined.

(** ** contains_structure *)


(** A structure on the east edge of the unit cell touches the cell and is
    not within it; the cell is flagged. *)
Lemma structure_on_edge_is_flagged :
  contains_structure [Geo.Point 1 0.5] [Geo.box 0 0 1 1] = [true] /\
  Geo.touches (Geo.Point 1 0.5) (Geo.box 0 0 1 1) = true /\
  Geo.within (Geo.Point 1 0.5) (Geo.box 0 0 1 1) = false.
Proof. vm_compute. repeat split. Qed.


(** ** Spatial joins *)

Section JoinFacts.

Variables Point Polygon : Type.
Variable within : Point -> Polygon -> bool.

Lemma in_combine_seq {A : Type} (l : list A) (s j : nat) (x : A) :
  In (j, x) (combine (seq s (length l)) l) <->
  s <= j /\ nth_error l (j - s) = Some x.
Proof.
  revert s. induction l as [|a l IH]; intros s; simpl.
  - split; [intros [] | intros [_ H]]. now destruct (j - s).
  - rewrite IH. split.
    + intros [H | [H1 H2]].
      * injection H as <- <-. rewrite Nat.sub_diag. split; [lia | reflexivity].
      * split; [lia|]. replace (j - s) with (S (j - S s)) by lia. exact H2.
    + intros [H1 H2]. destruct (j - s) as [|d] eqn:E.
      * left. injection H2 as <-. f_equal. lia.
      * right. split; [lia|]. replace (j - S s) with d by lia. exact H2.
Qed.

Lemma matches_spec (p : Point) (polys : list Polygon) (j : nat) :
  In j (matches within p polys) <->
  exists poly, nth_error polys j = Some poly /\ within p poly = true.
Proof.
  unfold matches. rewrite in_map_iff. split.
  - intros ([j' poly] & <- & H). apply filter_In in H. destruct H as [H Hw].
    apply in_combine_seq in H. destruct H as [_ H]. rewrite Nat.sub_0_r in H.
    exists poly. split; [exact H | exact Hw].
  - intros (poly & Hn & Hw). exists (j, poly). split; [reflexivity|].
    apply filter_In. split; [|exact Hw].
    apply in_combine_seq. rewrite Nat.sub_0_r. split; [lia | exact Hn].
Qed.

Lemma matches_nil (p : Point) (polys : list Polygon) :
  (forall poly, In poly polys -> within p poly = false) ->
  matches within p polys = [].
Proof.
  intros H. destruct (matches within p polys) as [|j js] eqn:E; [reflexivity|].
  assert (Hj : In j (matches within p polys)) by (rewrite E; now left).
  apply matches_spec in Hj. destruct Hj as (poly & Hn & Hw).
  apply nth_error_In in Hn. rewrite (H poly Hn) in Hw. discriminate.
Qed.


Lemma pairs_sjoin_row {A : Type} (geom : A -> Point) (polys : list Polygon)
    (ia : nat * A) :
  pairs (sjoin_row within geom polys ia) = join_pairs within geom polys (snd ia).
Proof.
  unfold sjoin_row, join_pairs, pairs.
  destruct (matches within (geom (snd ia)) polys); [reflexivity|].
  now rewrite map_map.
Qed.

Lemma pairs_sjoin {A : Type} (geom : A -> Point) (left : list A)
    (polys : list Polygon) :
  pairs (sjoin within geom left polys) = flat_map (join_pairs within geom polys) left.
Proof.
  unfold sjoin. generalize 0. induction left as [|a left IH]; intros s.
  - reflexivity.
  - simpl. unfold pairs in *. rewrite map_app.
    fold (pairs (sjoin_row within geom polys (s, a))).
    rewrite pairs_sjoin_row. simpl. f_equal. apply IH.
Qed.

Lemma in_join_pairs {A : Type} (geom : A -> Point) (polys : list Polygon)
    (a a' : A) (k : nat) :
  In (a', Some k) (join_pairs within geom polys a) <->
  a' = a /\ In k (matches within (geom a) polys).
Proof.
  unfold join_pairs. destruct (matches within (geom a) polys) as [|j js].
  - simpl. split; [intros [H | []]; discriminate | intros [_ []]].
  - rewrite in_map_iff. split.
    + intros (j' & H & Hj). injection H as <- <-. now split.
    + intros [-> Hk]. now exists k.
Qed.

Lemma join_pairs_none {A : Type} (geom : A -> Point) (polys : list Polygon)
    (a : A) :
  (forall poly, In poly polys -> within (geom a) poly = false) ->
  join_pairs within geom polys a = [(a, None)].
Proof. intros H. unfold join_pairs. now rewrite (matches_nil _ _ H). Qed.

Lemma in_flat_join_pairs {A : Type} (geom : A -> Point) (polys : list Polygon)
    (left : list A) (a : A) (k : nat) :
  In (a, Some k) (flat_map (join_pairs within geom polys) left) <->
  In a left /\
  exists poly, nth_error polys k = Some poly /\ within (geom a) poly = true.
Proof.
  rewrite in_flat_map. split.
  - intros (a0 & Ha0 & H). apply in_join_pairs in H. destruct H as [-> H].
    split; [exact Ha0 | now apply matches_spec].
  - intros [Ha H]. exists a. split; [exact Ha|].
    apply in_join_pairs. split; [reflexivity | now apply matches_spec].
Qed.


Lemma group_keys_pairs {A : Type} (js : list (joined A)) :
  group_keys js = keys_of (present (pairs js)).
Proof.
  unfold group_keys, keys_of.
  assert (E : flat_map (fun r : joined A => match index_right r with
                                            | Some j => [j]
                                            | None => []
                                            end) js = present (pairs js)).
  { unfold present, pairs. induction js as [|r js IH]; [reflexivity|].
    simpl. now rewrite IH. }
  now rewrite E.
Qed.

Lemma group_pairs {A : Type} (k : nat) (js : list (joined A)) :
  group k js = members k (pairs js).
Proof.
  unfold group, members, pairs. induction js as [|r js IH]; [reflexivity|].
  simpl. destruct (index_right r) as [j|]; [destruct (Nat.eqb j k)|];
    simpl; now rewrite IH.
Qed.

Lemma in_present {A : Type} (ps : list (A * option nat)) (k : nat) :
  In k (present ps) <-> exists a, In (a, Some k) ps.
Proof.
  unfold present. rewrite in_flat_map. split.
  - intros ([a [j|]] & Hp & H); simpl in H; [|destruct H].
    destruct H as [<- | []]. now exists a.
  - intros (a & Ha). exists (a, Some k). split; [exact Ha | now left].
Qed.

Lemma le_fold_max (l : list nat) (k : nat) :
  In k l -> k <= fold_right Nat.max 0 l.
Proof.
  induction l as [|x l IH]; simpl; [intros [] | intros [-> | H]].
  - lia.
  - apply IH in H. lia.
Qed.

Lemma in_keys_of (l : list nat) (k : nat) : In k (keys_of l) <-> In k l.
Proof.
  unfold keys_of. rewrite filter_In, existsb_exists, in_seq. split.
  - intros (_ & x & Hx & E). apply Nat.eqb_eq in E. now subst.
  - intros H. split.
    + apply le_fold_max in H. lia.
    + exists k. split; [exact H | apply Nat.eqb_refl].
Qed.

Lemma present_skip {A : Type} (ps1 ps2 : list (A * option nat)) (a : A) :
  present (ps1 ++ (a, None) :: ps2) = present (ps1 ++ ps2).
Proof. unfold present. now rewrite !flat_map_app. Qed.

Lemma members_skip {A : Type} (k : nat) (ps1 ps2 : list (A * option nat))
    (a : A) :
  members k (ps1 ++ (a, None) :: ps2) = members k (ps1 ++ ps2).
Proof. unfold members. now rewrite !filter_app. Qed.

Section ErsemFacts.

Context {F : Type} `{Number F}.


Lemma map_to_polygons_pairs (fs : filesystem Polygon)
    (ersem_data : list (ersem_row Point F)) (shapefile : string)
    (grid : GeoDataFrame Polygon) :
  fs shapefile = Some grid ->
  map_to_polygons within fs ersem_data shapefile =
  Ok (polygon_rows
        (flat_map (join_pairs within ersem_point (gdf_geometry grid)) ersem_data)).
Proof.
  intros Hfs. unfold map_to_polygons.
  rewrite (read_file_some _ _ _ Hfs). simpl. f_equal.
  unfold polygon_rows. rewrite group_keys_pairs, pairs_sjoin.
  apply map_ext. intros k. now rewrite group_pairs, pairs_sjoin.
Qed.

End ErsemFacts.

End JoinFacts.

(** *** map_to_polygons *)

(** C10: a polygon identifier has a row in the table that
    [map_to_polygons] returns exactly when some data point lies within that
    polygon, so polygons holding no data point are absent; and a data point
    within no polygon contributes to no row: leaving it out gives the same
    table. *)
Theorem map_to_polygons_rows
    (Point Polygon : Type) (within : Point -> Polygon -> bool)
    (F : Type) (num : Number F)
    (fs : filesystem Polygon) (ersem_data : list (ersem_row Point F))
    (shapefile : string) (grid : GeoDataFrame Polygon)
    (polygon_data : list (nat * F)) :
  fs shapefile = Some grid ->
  map_to_polygons within fs ersem_data shapefile = Ok polygon_data ->
  (forall k, In k (map fst polygon_data) <->
     exists r poly, In r ersem_data /\
                    nth_error (gdf_geometry grid) k = Some poly /\
                    within (ersem_point r) poly = true) /\
  (forall before p after, ersem_data = before ++ p :: after ->
     (forall poly, In poly (gdf_geometry grid) ->
                   within (ersem_point p) poly = false) ->
     map_to_polygons within fs (before ++ after) shapefile = Ok polygon_data).
Proof.
  intros Hfs Hrun.
  rewrite (map_to_polygons_pairs _ _ within fs ersem_data shapefile grid Hfs)
    in Hrun.
  injection Hrun as <-. split.
  - intros k. unfold polygon_rows. rewrite map_map. simpl. rewrite map_id.
    rewrite in_keys_of, in_present. split.
    + intros (r & Hr). apply in_flat_join_pairs in Hr.
      destruct Hr as (Hr & poly & Hn & Hw). now exists r, poly.
    + intros (r & poly & Hr & Hn & Hw). exists r.
      apply in_flat_join_pairs. split; [exact Hr | now exists poly].
  - intros before p after -> Hout.
    rewrite (map_to_polygons_pairs _ _ within fs (before ++ after) shapefile
               grid Hfs).
    f_equal. rewrite !flat_map_app. simpl.
    rewrite (join_pairs_none _ _ within ersem_point _ p Hout). simpl.
    unfold polygon_rows. rewrite present_skip.
    apply map_ext. intros k. now rewrite members_skip.
Qed.


Lemma map_to_polygons_rows_witness :
  (forall k, In k (map fst [(0, 4%float)]) <->
     exists r poly, In r example_ersem /\
                    nth_error (gdf_geometry intervals) k = Some poly /\
                    within_interval (ersem_point r) poly = true) /\
  (forall before p after, example_ersem = before ++ p :: after ->
     (forall poly, In poly (gdf_geometry intervals) ->
                   within_interval (ersem_point p) poly = false) ->
     map_to_polygons within_interval intervals_fs (before ++ after) "grid.shp"
       = Ok [(0, 4%float)]).
Proof.
  apply (map_to_polygons_rows Z (Z * Z)%type within_interval float IEEE
           intervals_fs example_ersem "grid.shp" intervals [(0, 4%float)]).
  - reflexivity.
  - vm_compute. reflexivity.
Defined.

(** *** assign_polygons *)

Lemma assign_polygons_no_release_column
    (Point Polygon : Type) (within : Point -> Polygon -> bool)
    (fs : filesystem Polygon) (particle_ids : list Z)
    (first_positions last_positions : list Point) (shapefile : string)
    (grid : GeoDataFrame Polygon) :
  fs shapefile = Some grid ->
  length particle_ids = length first_positions ->
  length particle_ids = length last_positions ->
  find (fun c => String.eqb (fst c) "Release_poly") (gdf_columns grid) = None ->
  assign_polygons within fs particle_ids first_positions last_positions shapefile
    = Err (KeyError "Release_poly").
Proof.
  intros Hfs H1 H2 Hcol. unfold assign_polygons, particle_frame.
  rewrite (read_file_some _ _ _ Hfs), <- H1, <- H2, Nat.eqb_refl. simpl.
  unfold right_column. now rewrite Hcol.
Qed.

(** C8 fails on the code: a grid of one polygon without attribute columns
    (as [save_grid_as_shapefile] writes it) and one particle make
    [assign_polygons] raise [KeyError: 'Release_poly'] instead of returning
    a row, wherever the particle starts and ends. *)
Theorem assign_polygons_raises_keyerror
    (Point Polygon : Type) (within : Point -> Polygon -> bool)
    (first_position last_position : Point) (poly : Polygon) :
  assign_polygons within (fun _ => Some (mkGeoDataFrame [poly] []))
    [1%Z] [first_position] [last_position] "grid.shp"
  = Err (KeyError "Release_poly").
Proof.
  unfold assign_polygons, read_file, particle_frame. simpl.
  (* the join is built, the settlement column is filled, and then
     [first_joined['Release_poly']] finds no such column *)
  unfold right_column. simpl. reflexivity.
Qed.

(** With a grid file that does carry a [Release_poly] attribute, and
    polygons of which no position is within two, [assign_polygons] returns
    one row per particle, in order, and the settlement column holds the
    sentinel exactly for the particles that end within no polygon. *)

Section AssignFacts.

Variables Point Polygon : Type.
Variable within : Point -> Polygon -> bool.

Lemma map_fst_combine {A B : Type} (l : list A) (l' : list B) :
  length l = length l' -> map fst (combine l l') = l.
Proof.
  revert l'. induction l as [|a l IH]; intros [|b l'] H;
    try discriminate; [reflexivity|].
  simpl. f_equal. apply IH. now injection H.
Qed.

Lemma map_snd_combine {A B : Type} (l : list A) (l' : list B) :
  length l = length l' -> map snd (combine l l') = l'.
Proof.
  revert l'. induction l as [|a l IH]; intros [|b l'] H;
    try discriminate; [reflexivity|].
  simpl. f_equal. apply IH. now injection H.
Qed.

Lemma pairs_sjoin_single {A : Type} (geom : A -> Point) (left : list A)
    (polys : list Polygon) :
  (forall a, In a left -> length (matches within (geom a) polys) <= 1) ->
  pairs (sjoin within geom left polys) =
  map (fun a => (a, hd_error (matches within (geom a) polys))) left.
Proof.
  rewrite pairs_sjoin. induction left as [|a left IH]; intros H;
    [reflexivity|].
  simpl. rewrite IH by (intros; apply H; now right). f_equal.
  pose proof (H a (or_introl eq_refl)) as Ha. unfold join_pairs.
  destruct (matches within (geom a) polys) as [|j [|j' js]];
    [reflexivity | reflexivity | simpl in Ha; lia].
Qed.

Lemma sentinel_iff_unmatched (q : Point) (polys : list Polygon) :
  fillna_index_right (hd_error (matches within q polys))
    = VStr "outside grid domain" <->
  (forall poly, In poly polys -> within q poly = false).
Proof.
  split.
  - intros H poly Hpoly.
    destruct (matches within q polys) as [|j js] eqn:E; [|discriminate].
    destruct (within q poly) eqn:Hw; [|reflexivity].
    apply In_nth_error in Hpoly. destruct Hpoly as [k Hk].
    assert (Hin : In k (matches within q polys))
      by (apply matches_spec; now exists poly).
    rewrite E in Hin. destruct Hin.
  - intros H. now rewrite (matches_nil _ _ within q polys H).
Qed.

Lemma assign_polygons_with_release_column
    (fs : filesystem Polygon) (particle_ids : list Z)
    (first_positions last_positions : list Point) (shapefile : string)
    (grid : GeoDataFrame Polygon) (c : string * list value) :
  fs shapefile = Some grid ->
  length particle_ids = length first_positions ->
  length particle_ids = length last_positions ->
  find (fun c => String.eqb (fst c) "Release_poly") (gdf_columns grid)
    = Some c ->
  (forall p, In p (first_positions ++ last_positions) ->
             length (matches within p (gdf_geometry grid)) <= 1) ->
  exists results,
    assign_polygons within fs particle_ids first_positions last_positions
      shapefile = Ok results /\
    map particleID results = particle_ids /\
    map Settlement_poly results =
      map (fun q => fillna_index_right
                      (hd_error (matches within q (gdf_geometry grid))))
          last_positions.
Proof.
  intros Hfs H1 H2 Hcol Hone.
  unfold assign_polygons, particle_frame.
  rewrite (read_file_some _ _ _ Hfs), <- H1, <- H2, Nat.eqb_refl. simpl.
  unfold right_column. rewrite Hcol. simpl.
  set (polys := gdf_geometry grid) in *.
  set (first_joined := sjoin within snd (combine particle_ids first_positions) polys).
  set (last_joined := sjoin within snd (combine particle_ids last_positions) polys).
  assert (Hf : pairs first_joined =
               map (fun a => (a, hd_error (matches within (snd a) polys)))
                   (combine particle_ids first_positions)).
  { apply pairs_sjoin_single. intros [id p] Hin. apply Hone.
    apply in_or_app. left. eapply in_combine_r. exact Hin. }
  assert (Hl : pairs last_joined =
               map (fun a => (a, hd_error (matches within (snd a) polys)))
                   (combine particle_ids last_positions)).
  { apply pairs_sjoin_single. intros [id p] Hin. apply Hone.
    apply in_or_app. right. eapply in_combine_r. exact Hin. }
  assert (Lf : length first_joined = length particle_ids).
  { rewrite <- (length_map (fun r => (left_row r, index_right r))).
    fold (pairs first_joined). rewrite Hf, length_map, length_combine. lia. }
  assert (Ll : length last_joined = length particle_ids).
  { rewrite <- (length_map (fun r => (left_row r, index_right r))).
    fold (pairs last_joined). rewrite Hl, length_map, length_combine. lia. }
  unfold results_frame. rewrite !length_map, Lf, Ll, Nat.eqb_refl. simpl.
  eexists. split; [reflexivity|].
  set (release := map _ first_joined).
  set (settlement := map _ last_joined).
  assert (Lr : length release = length particle_ids)
    by (unfold release; now rewrite length_map).
  assert (Ls : length settlement = length particle_ids)
    by (unfold settlement; now rewrite length_map).
  split.
  - rewrite map_map. simpl.
    rewrite <- (map_map fst fst), map_fst_combine
      by (rewrite length_combine; lia).
    apply map_fst_combine. lia.
  - rewrite map_map.
    transitivity (map snd (combine (combine particle_ids release) settlement));
      [apply map_ext; reflexivity|].
    rewrite (map_snd_combine (combine particle_ids release) settlement)
      by (rewrite length_combine; lia).
    unfold settlement.
    transitivity (map (fun p : (Z * Point) * option nat =>
                         fillna_index_right (snd p)) (pairs last_joined));
      [unfold pairs; now rewrite map_map|].
    rewrite Hl, map_map.
    transitivity
      (map (fun q => fillna_index_right (hd_error (matches within q polys)))
           (map snd (combine particle_ids last_positions)));
      [now rewrite map_map|].
    now rewrite map_snd_combine by exact H2.
Qed.

End AssignFacts.

(** ** Scores, in exact arithmetic *)

Module ExactFacts.

Local Open Scope R_scope.













Lemma fold_fadd_some (col : list xreal) (acc : R) :
  fold_left fadd (map nan_to_zero col) (Some acc) =
  Some (acc + Rsum (values col)).
Proof.
  revert acc. induction col as [|[x|] col IH]; intros acc; simpl.
  - f_equal. lra.
  - rewrite IH. f_equal. lra.
  - unfold nan_to_zero at 1. simpl. rewrite IH. f_equal. lra.
Qed.

(** [nansum] never gives a NaN: it is the sum of the values present. *)
Lemma nansum_values (col : list xreal) :
  nansum col = Some (Rsum (values col)).
Proof.
  unfold nansum. simpl (fzero). rewrite fold_fadd_some. f_equal. lra.
Qed.



End ExactFacts.





(** In binary64 the formula is rounded: with the z-sums 0.1, 0.2 and 0.3,
    where [(0.1 + 0.3) / 2] is 0.2 in binary64 though not exactly, the
    middle row gets [2^-52] rather than 0. *)
Remark standard_z_sum_rounding :
  standardize [0.1; 0.2; 0.3]%float = [-1; 0x1p-52; 1]%float.
Proof. vm_compute. reflexivity. Qed.


(** ** Min-max normalization *)








(** In binary64 the normalized values are rounded: on the column 0, 49
    the maximum maps to [49 * (1 / 49)], one rounding short of 1. *)
Remark minmax_rounding :
  fit_transform [0; 49]%float = [0; 0.99999999999999989]%float.
Proof. vm_compute. reflexivity. Qed.


(** ** The degenerate rescaling, in binary64 *)

Module IEEEFacts.

Local Open Scope float_scope.









End IEEEFacts.




(** ** The joins, polygon by polygon *)

Section GroupFacts.

Variables Point Polygon : Type.
Variable within : Point -> Polygon -> bool.

Lemma matches_inside (p : Point) (polys : list Polygon) (k : nat) :
  In k (matches within p polys) <-> inside within polys k p = true.
Proof.
  rewrite matches_spec. unfold inside. split.
  - intros (poly & -> & Hw). exact Hw.
  - destruct (nth_error polys k) as [poly|]; [|discriminate].
    intros Hw. now exists poly.
Qed.

Lemma NoDup_map_fst_filter {B : Type} (f : nat * B -> bool) (l : list (nat * B)) :
  NoDup (map fst l) -> NoDup (map fst (filter f l)).
Proof.
  induction l as [|x l IH]; simpl; intros H; [constructor|].
  inversion H as [|? ? Hx Hl]; subst.
  destruct (f x); simpl; [|now apply IH].
  constructor; [|now apply IH].
  intros Hin. apply Hx. apply in_map_iff in Hin.
  destruct Hin as (y & E & Hy). apply filter_In in Hy.
  apply in_map_iff. exists y. tauto.
Qed.

Lemma matches_NoDup (p : Point) (polys : list Polygon) :
  NoDup (matches within p polys).
Proof.
  unfold matches. apply NoDup_map_fst_filter.
  rewrite map_fst_combine by now rewrite length_seq.
  apply seq_NoDup.
Qed.

Lemma filter_eqb_NoDup (l : list nat) (k : nat) :
  NoDup l ->
  filter (fun j => Nat.eqb j k) l = if existsb (Nat.eqb k) l then [k] else [].
Proof.
  induction l as [|x l IH]; intros H; [reflexivity|].
  inversion H as [|? ? Hx Hl]; subst. simpl.
  rewrite (Nat.eqb_sym k x). destruct (Nat.eqb x k) eqn:E.
  - apply Nat.eqb_eq in E. subst x. simpl. f_equal.
    rewrite (IH Hl).
    destruct (existsb (Nat.eqb k) l) eqn:E'; [|reflexivity].
    apply existsb_exists in E'. destruct E' as (y & Hy & Ey).
    apply Nat.eqb_eq in Ey. subst y. contradiction.
  - simpl. now apply IH.
Qed.

Lemma existsb_eqb_matches (p : Point) (polys : list Polygon) (k : nat) :
  existsb (Nat.eqb k) (matches within p polys) = inside within polys k p.
Proof.
  apply eq_true_iff_eq. rewrite existsb_exists, <- matches_inside. split.
  - intros (j & Hj & E). apply Nat.eqb_eq in E. now subst.
  - intros H. exists k. split; [exact H | apply Nat.eqb_refl].
Qed.

(** In the join, the rows of polygon [k] that come from the left row [a]:
    [a] itself, once, when its point is within the polygon. *)
Lemma members_join_pairs {A : Type} (geom : A -> Point) (polys : list Polygon)
    (a : A) (k : nat) :
  members k (join_pairs within geom polys a) =
  if inside within polys k (geom a) then [a] else [].
Proof.
  rewrite <- existsb_eqb_matches. unfold join_pairs, members.
  pose proof (matches_NoDup (geom a) polys) as Hnd.
  destruct (matches within (geom a) polys) as [|j js] eqn:E; [reflexivity|].
  transitivity (map (fun _ : nat => a) (filter (fun j => Nat.eqb j k) (j :: js))).
  - generalize (j :: js). intros l. induction l as [|x l IH]; [reflexivity|].
    simpl. destruct (Nat.eqb x k); simpl; now rewrite IH.
  - rewrite (filter_eqb_NoDup _ k Hnd).
    now destruct (existsb (Nat.eqb k) (j :: js)).
Qed.

Lemma members_app {A : Type} (k : nat) (ps qs : list (A * option nat)) :
  members k (ps ++ qs) = members k ps ++ members k qs.
Proof. unfold members. now rewrite filter_app, map_app. Qed.

Lemma members_flat_join_pairs {A : Type} (geom : A -> Point)
    (polys : list Polygon) (left : list A) (k : nat) :
  members k (flat_map (join_pairs within geom polys) left) =
  filter (fun a => inside within polys k (geom a)) left.
Proof.
  induction left as [|a left IH]; [reflexivity|].
  simpl. rewrite members_app, members_join_pairs, IH.
  now destruct (inside within polys k (geom a)).
Qed.






End GroupFacts.




Module MeanFacts.

Local Open Scope R_scope.

Lemma count_values (col : list xreal) : count col = length (values col).
Proof.
  unfold count, values. induction col as [|[x|] col IH]; simpl;
    [reflexivity | f_equal; exact IH | exact IH].
Qed.

(** In exact arithmetic [nanmean] is the arithmetic mean of the values
    present, and NaN when there is none. *)
Lemma nanmean_values (col : list xreal) :
  nanmean col = match values col with
                | [] => None
                | v :: vs => Some (Rsum (v :: vs) / INR (length (v :: vs)))
                end.
Proof.
  unfold nanmean. rewrite ExactFacts.nansum_values, count_values.
  destruct (values col) as [|v vs].
  - simpl. destruct (Req_dec_T 0 0) as [_|Hn]; [reflexivity | now destruct Hn].
  - cbn [of_count Exact fdiv xdiv].
    destruct (Req_dec_T (INR (length (v :: vs))) 0) as [Hz|_]; [|reflexivity].
    exfalso. revert Hz. apply not_0_INR. discriminate.
Qed.

End MeanFacts.

(** X8: in exact arithmetic, the [Average_P] of a polygon in the table of
    [map_to_polygons] is the sum of the [Total_P] values present among the
    data points within the polygon, divided by their number; data points whose
    [Total_P] is missing are left out of the mean, and a polygon whose points
    all lack a value gets NaN. *)
Theorem map_to_polygons_average
    (Point Polygon : Type) (within : Point -> Polygon -> bool)
    (fs : filesystem Polygon) (ersem_data : list (ersem_row Point xreal))
    (shapefile : string) (grid : GeoDataFrame Polygon)
    (polygon_data : list (nat * xreal)) (k : nat) (average : xreal) :
  fs shapefile = Some grid ->
  map_to_polygons within fs ersem_data shapefile = Ok polygon_data ->
  In (k, average) polygon_data ->
  average =
    match values (map Total_P
                    (filter (fun r => inside within (gdf_geometry grid) k
                                              (ersem_point r))
                            ersem_data)) with
    | [] => None
    | v :: vs => Some (Rsum (v :: vs) / INR (length (v :: vs)))%R
    end.
Proof.
  intros Hfs Hrun Hin.
  rewrite (map_to_polygons_pairs _ _ within fs ersem_data shapefile grid Hfs)
    in Hrun.
  injection Hrun as <-. unfold polygon_rows in Hin.
  apply in_map_iff in Hin. destruct Hin as (k' & E & _).
  injection E as -> <-.
  rewrite members_flat_join_pairs. apply MeanFacts.nanmean_values.
Qed.

Lemma map_to_polygons_average_witness :
  nanmean [Some 2%R; None; Some 6%R] =
    match values (map Total_P
                    (filter (fun r => inside within_interval
                                              (gdf_geometry intervals) 0
                                              (ersem_point r))
                            example_ersem_exact)) with
    | [] => None
    | v :: vs => Some (Rsum (v :: vs) / INR (length (v :: vs)))%R
    end.
Proof.
  apply (map_to_polygons_average Z (Z * Z)%type within_interval
           intervals_fs example_ersem_exact "grid.shp" intervals
           [(0, nanmean [Some 2%R; None; Some 6%R])] 0).
  - reflexivity.
  - reflexivity.
  - left. reflexivity.
Defined.

(** ** assign_polygons, row by row *)

Section AssignRows.

Variables Point Polygon : Type.
Variable within : Point -> Polygon -> bool.

Lemma length_pairs {A : Type} (js : list (joined A)) :
  length (pairs js) = length js.
Proof. unfold pairs. apply length_map. Qed.

Lemma length_join_pairs {A : Type} (geom : A -> Point) (polys : list Polygon)
    (a : A) :
  1 <= length (join_pairs within geom polys a) /\
  length (matches within (geom a) polys) <= length (join_pairs within geom polys a).
Proof.
  unfold join_pairs. destruct (matches within (geom a) polys) as [|j js].
  - simpl. lia.
  - rewrite length_map. simpl. lia.
Qed.

Lemma length_sjoin_ge {A : Type} (geom : A -> Point) (left : list A)
    (polys : list Polygon) :
  length left <= length (sjoin within geom left polys).
Proof.
  rewrite <- length_pairs, (pairs_sjoin _ _ within).
  induction left as [|a left IH]; [reflexivity|].
  simpl. rewrite length_app.
  pose proof (length_join_pairs geom polys a). lia.
Qed.

Lemma length_sjoin_gt {A : Type} (geom : A -> Point) (left : list A)
    (polys : list Polygon) (a : A) :
  In a left -> 2 <= length (matches within (geom a) polys) ->
  length left < length (sjoin within geom left polys).
Proof.
  rewrite <- length_pairs, (pairs_sjoin _ _ within).
  induction left as [|a' left IH]; intros Hin Hlen; [destruct Hin|].
  simpl. rewrite length_app.
  pose proof (length_join_pairs geom polys a') as [H1 H2].
  destruct Hin as [-> | Hin].
  - pose proof (length_sjoin_ge geom left polys) as Hge.
    rewrite <- length_pairs, (pairs_sjoin _ _ within) in Hge. lia.
  - specialize (IH Hin Hlen). lia.
Qed.

Lemma two_matches (p : Point) (polys : list Polygon) (j k : nat) :
  j <> k -> In j (matches within p polys) -> In k (matches within p polys) ->
  2 <= length (matches within p polys).
Proof.
  intros Hjk Hj Hk.
  destruct (matches within p polys) as [|a [|b l]]; simpl in *; [tauto | | lia].
  destruct Hj as [<- | []], Hk as [<- | []]. now destruct Hjk.
Qed.

Lemma in_combine_snd {A B : Type} (l : list A) (l' : list B) (b : B) :
  length l = length l' -> In b l' -> exists a, In (a, b) (combine l l').
Proof.
  revert l'. induction l as [|a l IH]; intros [|b' l'] H Hin;
    try discriminate; [destruct Hin|].
  destruct Hin as [-> | Hin].
  - exists a. now left.
  - injection H as H. destruct (IH l' H Hin) as (a0 & Ha0).
    exists a0. now right.
Qed.

Lemma combine_rows (ids : list Z) (firsts lasts : list Point)
    (g h : Point -> value) :
  length ids = length firsts -> length ids = length lasts ->
  map (fun t : Z * value * value =>
         mkassignment (fst (fst t)) (snd (fst t)) (snd t))
      (combine
         (combine ids (map (fun a : Z * Point => g (snd a)) (combine ids firsts)))
         (map (fun a : Z * Point => h (snd a)) (combine ids lasts))) =
  map (fun t : Z * (Point * Point) =>
         mkassignment (fst t) (g (fst (snd t))) (h (snd (snd t))))
      (combine ids (combine firsts lasts)).
Proof.
  revert firsts lasts.
  induction ids as [|id ids IH]; intros [|p firsts] [|q lasts] H1 H2;
    try discriminate; [reflexivity|].
  simpl. f_equal. apply IH; [now injection H1 | now injection H2].
Qed.

End AssignRows.

Lemma assign_polygons_table
    (Point Polygon : Type) (within : Point -> Polygon -> bool)
    (fs : filesystem Polygon) (particle_ids : list Z)
    (first_positions last_positions : list Point) (shapefile : string)
    (grid : GeoDataFrame Polygon) (c : string * list value) :
  fs shapefile = Some grid ->
  length particle_ids = length first_positions ->
  length particle_ids = length last_positions ->
  find (fun c => String.eqb (fst c) "Release_poly") (gdf_columns grid)
    = Some c ->
  (forall p, In p (first_positions ++ last_positions) ->
             length (matches within p (gdf_geometry grid)) <= 1) ->
  assign_polygons within fs particle_ids first_positions last_positions
    shapefile =
  Ok (map (fun t : Z * (Point * Point) =>
             mkassignment (fst t)
               match hd_error (matches within (fst (snd t)) (gdf_geometry grid)) with
               | Some j => nth j (snd c) VNaN
               | None => VNaN
               end
               match hd_error (matches within (snd (snd t)) (gdf_geometry grid)) with
               | Some j => VInt (Z.of_nat j)
               | None => VStr "outside grid domain"
               end)
          (combine particle_ids (combine first_positions last_positions))).
Proof.
  intros Hfs H1 H2 Hcol Hone.
  unfold assign_polygons, particle_frame.
  rewrite (read_file_some _ _ _ Hfs), <- H1, <- H2, Nat.eqb_refl. simpl.
  unfold right_column. rewrite Hcol. simpl.
  set (polys := gdf_geometry grid) in *.
  set (first_joined := sjoin within snd (combine particle_ids first_positions) polys).
  set (last_joined := sjoin within snd (combine particle_ids last_positions) polys).
  assert (Hf : pairs first_joined =
               map (fun a => (a, hd_error (matches within (snd a) polys)))
                   (combine particle_ids first_positions)).
  { apply pairs_sjoin_single. intros [id p] Hin. apply Hone.
    apply in_or_app. left. eapply in_combine_r. exact Hin. }
  assert (Hl : pairs last_joined =
               map (fun a => (a, hd_error (matches within (snd a) polys)))
                   (combine particle_ids last_positions)).
  { apply pairs_sjoin_single. intros [id p] Hin. apply Hone.
    apply in_or_app. right. eapply in_combine_r. exact Hin. }
  assert (Er : map (fun r : joined (Z * Point) =>
                      match index_right r with
                      | Some j => nth j (snd c) VNaN
                      | None => VNaN
                      end) first_joined =
               map (fun a : Z * Point =>
                      match hd_error (matches within (snd a) polys) with
                      | Some j => nth j (snd c) VNaN
                      | None => VNaN
                      end) (combine particle_ids first_positions)).
  { transitivity (map (fun p : (Z * Point) * option nat =>
                         match snd p with
                         | Some j => nth j (snd c) VNaN
                         | None => VNaN
                         end) (pairs first_joined));
      [unfold pairs; now rewrite map_map|].
    now rewrite Hf, map_map. }
  assert (Es : map (fun r : joined (Z * Point) =>
                      fillna_index_right (index_right r)) last_joined =
               map (fun a : Z * Point =>
                      fillna_index_right (hd_error (matches within (snd a) polys)))
                   (combine particle_ids last_positions)).
  { transitivity (map (fun p : (Z * Point) * option nat =>
                         fillna_index_right (snd p)) (pairs last_joined));
      [unfold pairs; now rewrite map_map|].
    now rewrite Hl, map_map. }
  rewrite Er, Es. unfold results_frame.
  rewrite !length_map, !length_combine, <- H1, <- H2, Nat.min_id, Nat.eqb_refl.
  simpl. f_equal.
  exact (combine_rows Point particle_ids first_positions last_positions
           (fun p => match hd_error (matches within p polys) with
                     | Some j => nth j (snd c) VNaN
                     | None => VNaN
                     end)
           (fun q => fillna_index_right (hd_error (matches within q polys)))
           H1 H2).
Qed.

(** X9: with a grid file that carries a [Release_poly] attribute, and polygons
    of which no position is within two, [assign_polygons] returns one row per
    particle, in order: the particle's identifier; as [Release_poly] the
    attribute of the polygon its first position is within, or NaN when it is
    within none; as [Settlement_poly] the position in the grid of the polygon
    its last position is within, or ['outside grid domain'] when it is within
    none. *)
Theorem assign_polygons_rows
    (Point Polygon : Type) (within : Point -> Polygon -> bool)
    (fs : filesystem Polygon) (particle_ids : list Z)
    (first_positions last_positions : list Point) (shapefile : string)
    (grid : GeoDataFrame Polygon) (c : string * list value) :
  fs shapefile = Some grid ->
  length particle_ids = length first_positions ->
  length particle_ids = length last_positions ->
  find (fun c => String.eqb (fst c) "Release_poly") (gdf_columns grid)
    = Some c ->
  (forall p, In p (first_positions ++ last_positions) ->
             length (matches within p (gdf_geometry grid)) <= 1) ->
  assign_polygons within fs particle_ids first_positions last_positions
    shapefile =
  Ok (map (fun t : Z * (Point * Point) =>
             mkassignment (fst t)
               match hd_error (matches within (fst (snd t)) (gdf_geometry grid)) with
               | Some j => nth j (snd c) VNaN
               | None => VNaN
               end
               match hd_error (matches within (snd (snd t)) (gdf_geometry grid)) with
               | Some j => VInt (Z.of_nat j)
               | None => VStr "outside grid domain"
               end)
          (combine particle_ids (combine first_positions last_positions))).
Proof.
  intros Hfs H1 H2 Hcol Hone.
  now apply assign_polygons_table.
Qed.

Lemma assign_polygons_rows_witness :
  assign_polygons within_interval named_fs [1; 2; 3]%Z [1; 25; 10]%Z
    [21; 7; 4]%Z "grid.shp" =
  Ok (map (fun t : Z * (Z * Z) =>
             mkassignment (fst t)
               match hd_error (matches within_interval (fst (snd t))
                                 (gdf_geometry named_intervals)) with
               | Some j => nth j [VInt 7; VInt 9] VNaN
               | None => VNaN
               end
               match hd_error (matches within_interval (snd (snd t))
                                 (gdf_geometry named_intervals)) with
               | Some j => VInt (Z.of_nat j)
               | None => VStr "outside grid domain"
               end)
          (combine [1; 2; 3]%Z (combine [1; 25; 10]%Z [21; 7; 4]%Z))).
Proof.
  apply (assign_polygons_rows Z (Z * Z)%type within_interval named_fs
           [1; 2; 3]%Z [1; 25; 10]%Z [21; 7; 4]%Z "grid.shp" named_intervals
           ("Release_poly"%string, [VInt 7; VInt 9])).
  - reflexivity.
  - reflexivity.
  - reflexivity.
  - reflexivity.
  - apply Forall_forall.
    repeat (apply Forall_cons; [vm_compute; lia|]). apply Forall_nil.
Defined.

(** X10: when a first or a last position is within two polygons of the grid
    (polygons that overlap), the join has more rows than there are particles
    and [assign_polygons] raises a [ValueError] when it builds the result. *)
Theorem assign_polygons_overlapping_polygons
    (Point Polygon : Type) (within : Point -> Polygon -> bool)
    (fs : filesystem Polygon) (particle_ids : list Z)
    (first_positions last_positions : list Point) (shapefile : string)
    (grid : GeoDataFrame Polygon) (c : string * list value)
    (p : Point) (j k : nat) (poly_j poly_k : Polygon) :
  fs shapefile = Some grid ->
  length particle_ids = length first_positions ->
  length particle_ids = length last_positions ->
  find (fun c => String.eqb (fst c) "Release_poly") (gdf_columns grid)
    = Some c ->
  In p (first_positions ++ last_positions) ->
  j <> k ->
  nth_error (gdf_geometry grid) j = Some poly_j -> within p poly_j = true ->
  nth_error (gdf_geometry grid) k = Some poly_k -> within p poly_k = true ->
  exists msg,
    assign_polygons within fs particle_ids first_positions last_positions
      shapefile = Err (ValueError msg).
Proof.
  intros Hfs H1 H2 Hcol Hin Hjk Hj Hwj Hk Hwk.
  assert (Htwo : 2 <= length (matches within p (gdf_geometry grid))).
  { apply (two_matches _ _ within p _ j k Hjk); apply matches_spec;
      [now exists poly_j | now exists poly_k]. }
  unfold assign_polygons, particle_frame.
  rewrite (read_file_some _ _ _ Hfs), <- H1, <- H2, Nat.eqb_refl. simpl.
  unfold right_column. rewrite Hcol. simpl.
  unfold results_frame. rewrite !length_map.
  set (polys := gdf_geometry grid) in *.
  assert (Hne : Nat.eqb (length (sjoin within snd
                           (combine particle_ids first_positions) polys))
                        (length particle_ids) &&
                Nat.eqb (length (sjoin within snd
                           (combine particle_ids last_positions) polys))
                        (length particle_ids) = false).
  { apply andb_false_iff. apply in_app_or in Hin. destruct Hin as [Hin|Hin].
    - left. apply Nat.eqb_neq.
      destruct (in_combine_snd particle_ids first_positions p H1 Hin) as (id & Hid).
      pose proof (length_sjoin_gt _ _ within snd _ polys (id, p) Hid Htwo) as Hgt.
      rewrite length_combine in Hgt. lia.
    - right. apply Nat.eqb_neq.
      destruct (in_combine_snd particle_ids last_positions p H2 Hin) as (id & Hid).
      pose proof (length_sjoin_gt _ _ within snd _ polys (id, p) Hid Htwo) as Hgt.
      rewrite length_combine in Hgt. lia. }
  rewrite Hne. eexists. reflexivity.
Qed.

Lemma assign_polygons_overlapping_polygons_witness :
  exists msg,
    assign_polygons within_interval overlapping_fs [1; 2]%Z [1; 25]%Z
      [4; 40]%Z "grid.shp" = Err (ValueError msg).
Proof.
  apply (assign_polygons_overlapping_polygons Z (Z * Z)%type within_interval
           overlapping_fs [1; 2]%Z [1; 25]%Z [4; 40]%Z "grid.shp"
           overlapping_intervals ("Release_poly"%string, [VInt 7; VInt 9])
           4%Z 0 1 (0, 5)%Z (3, 30)%Z).
  - reflexivity.
  - reflexivity.
  - reflexivity.
  - reflexivity.
  - simpl. tauto.
  - discriminate.
  - reflexivity.
  - reflexivity.
  - reflexivity.
  - reflexivity.
Defined.

(** ** The z-sums of a grid *)

Module SumFacts.

Local Open Scope R_scope.





Lemma map_nth_seq {A : Type} (l : list A) (d : A) :
  map (fun i => nth i l d) (seq 0 (length l)) = l.
Proof.
  induction l as [|a l IH]; [reflexivity|].
  simpl. f_equal. rewrite <- seq_shift, map_map. exact IH.
Qed.









End SumFacts.



Module RankFacts.

Local Open Scope R_scope.



End RankFacts.



(** ** The merged frame of generate_analysis_csv *)

Module MergeFacts.

Lemma key_eqb_eq (a b : option Z) : key_eqb a b = true <-> a = b.
Proof.
  destruct a as [x|], b as [y|]; simpl; try (split; [discriminate|discriminate]);
    try (split; reflexivity).
  rewrite Z.eqb_eq. split; [now intros -> | now intros [= ->]].
Qed.

Lemma in_merge {L V : Type} (lkey : L -> option Z) (missing : V)
    (left : list L) (right : table V) (l : L) (v : V) :
  In (l, v) (merge lkey missing left right) <->
  In l left /\
  (In (lkey l, v) right \/
   (forall r, In r right -> fst r <> lkey l) /\ v = missing).
Proof.
  unfold merge. rewrite in_flat_map. split.
  - intros (l0 & Hl0 & Hin).
    destruct (filter (fun r => key_eqb (lkey l0) (fst r)) right) as [|r0 rs] eqn:E.
    + destruct Hin as [Hin | []]. injection Hin as -> ->.
      split; [exact Hl0|]. right. split; [|reflexivity].
      intros r Hr Hk.
      assert (Hf : In r (filter (fun r => key_eqb (lkey l) (fst r)) right)).
      { apply filter_In. split; [exact Hr|]. now apply key_eqb_eq. }
      rewrite E in Hf. destruct Hf.
    + apply in_map_iff in Hin. destruct Hin as (r & Er & Hr).
      injection Er as -> <-. split; [exact Hl0|]. left.
      rewrite <- E in Hr. apply filter_In in Hr. destruct Hr as [Hr Hk].
      apply key_eqb_eq in Hk. rewrite Hk. now destruct r.
  - intros [Hl [Hr | [Hnone ->]]].
    + exists l. split; [exact Hl|].
      assert (Hf : In (lkey l, v) (filter (fun r => key_eqb (lkey l) (fst r)) right)).
      { apply filter_In. split; [exact Hr|]. now apply key_eqb_eq. }
      destruct (filter (fun r => key_eqb (lkey l) (fst r)) right) as [|r0 rs];
        [destruct Hf|].
      apply in_map_iff. now exists (lkey l, v).
    + exists l. split; [exact Hl|].
      destruct (filter (fun r => key_eqb (lkey l) (fst r)) right) as [|r0 rs] eqn:E;
        [now left|].
      assert (Hf : In r0 (filter (fun r => key_eqb (lkey l) (fst r)) right))
        by (rewrite E; now left).
      apply filter_In in Hf. destruct Hf as [Hr Hk]. apply key_eqb_eq in Hk.
      exfalso. apply (Hnone r0 Hr). now symmetry.
Qed.

(** A left merge keeps the left rows in their order, each at least once. *)
Lemma merge_left_rows {L V : Type} (lkey : L -> option Z) (missing : V)
    (left : list L) (right : table V) :
  exists times : list nat,
    length times = length left /\
    Forall (fun t => 1 <= t) times /\
    map fst (merge lkey missing left right) =
    flat_map (fun lt => repeat (fst lt) (snd lt)) (combine left times).
Proof.
  induction left as [|l left (times & Hlen & Hpos & IH)].
  - exists []. repeat split. constructor.
  - destruct (filter (fun r => key_eqb (lkey l) (fst r)) right) as [|r0 rs] eqn:E.
    + exists (1 :: times). split; [simpl; now rewrite Hlen|].
      split; [constructor; [lia | exact Hpos]|].
      simpl. rewrite E. simpl. now rewrite IH.
    + exists (length (r0 :: rs) :: times). split; [simpl; now rewrite Hlen|].
      split; [constructor; [simpl; lia | exact Hpos]|].
      unfold merge in *. cbn [flat_map]. rewrite E, map_app, IH.
      cbn [combine flat_map fst snd]. f_equal.
      rewrite map_map. cbn [fst].
      generalize (r0 :: rs). intros l0. induction l0 as [|x l0 IH0];
        [reflexivity | simpl; now rewrite IH0].
Qed.

Lemma find_some_NoDup {V : Type} (t : table V) (k : option Z) (v : V) :
  NoDup (map fst t) -> In (k, v) t ->
  filter (fun r => key_eqb k (fst r)) t = [(k, v)].
Proof.
  induction t as [|[k' v'] t IH]; intros Hnd Hin; [destruct Hin|].
  inversion Hnd as [|? ? Hk' Ht]; subst. simpl.
  destruct Hin as [Hin | Hin].
  - injection Hin as -> ->.
    replace (key_eqb k k) with true by (symmetry; now apply key_eqb_eq).
    f_equal.
    destruct (filter (fun r => key_eqb k (fst r)) t) as [|r rs] eqn:E;
      [reflexivity|].
    assert (Hr : In r (filter (fun r => key_eqb k (fst r)) t))
      by (rewrite E; now left).
    apply filter_In in Hr. destruct Hr as [Hr Hk]. apply key_eqb_eq in Hk.
    exfalso. apply Hk'. rewrite Hk. now apply in_map.
  - destruct (key_eqb k k') eqn:E.
    + apply key_eqb_eq in E. subst k'. exfalso. apply Hk'.
      change k with (fst (k, v)). now apply in_map.
    + now apply IH.
Qed.

(** With keys that are not repeated, a left merge adds to every left row
    the value the right table holds for its key. *)
Lemma merge_unique {L V : Type} (lkey : L -> option Z) (missing : V)
    (left : list L) (right : table V) :
  NoDup (map fst right) ->
  merge lkey missing left right =
  map (fun l => (l, lookup_or missing right (lkey l))) left.
Proof.
  intros Hnd. unfold merge. induction left as [|l left IH]; [reflexivity|].
  change (flat_map ?f (l :: left)) with (f l ++ flat_map f left).
  change (map ?g (l :: left)) with ([g l] ++ map g left).
  rewrite IH. clear IH. f_equal.
  unfold lookup_or, lookup.
  destruct (find (fun r => key_eqb (lkey l) (fst r)) right) as [[k v]|] eqn:E.
  - apply find_some in E. destruct E as [Hin Hk]. simpl in Hk.
    apply key_eqb_eq in Hk. subst k.
    now rewrite (find_some_NoDup right (lkey l) v Hnd Hin).
  - destruct (filter (fun r => key_eqb (lkey l) (fst r)) right) as [|r rs] eqn:E';
      [reflexivity|].
    assert (Hr : In r (filter (fun r => key_eqb (lkey l) (fst r)) right))
      by (rewrite E'; now left).
    apply filter_In in Hr. destruct Hr as [Hr Hk].
    now rewrite (find_none _ _ E r Hr) in Hk.
Qed.

End MergeFacts.

Section MergedFacts.

Context {F : Type} `{Number F} `{Infinite F}.
Variable Label : Type.

Lemma column_none {G : Type} (name : string) (gdf : GeoDataFrame G) :
  find (fun c => String.eqb (fst c) name) (gdf_columns gdf) = None ->
  column name gdf = Err (KeyError ("['" ++ name ++ "'] not in index")).
Proof. unfold column. now intros ->. Qed.

Lemma lookup_map_snd {V W : Type} (f : option Z * V -> W) (t : table V)
    (k : option Z) :
  lookup (map (fun r => (fst r, f r)) t) k =
  option_map f (find (fun r => key_eqb k (fst r)) t).
Proof.
  unfold lookup. induction t as [|r t IH]; [reflexivity|].
  simpl. destruct (key_eqb k (fst r)); [reflexivity | exact IH].
Qed.

Lemma map_fst_map_key {V W : Type} (f : option Z * V -> W) (t : table V) :
  map fst (map (fun r => (fst r, f r)) t) = map fst t.
Proof. rewrite map_map. reflexivity. Qed.

Lemma lookup_combine_some {V : Type} (keys : list (option Z)) (vs : list V)
    (k : option Z) :
  lookup_or None (combine keys (map Some vs)) k = lookup (combine keys vs) k.
Proof.
  unfold lookup_or, lookup. revert vs.
  induction keys as [|a keys IH]; intros [|v vs]; try reflexivity.
  simpl. destruct (key_eqb k a); [reflexivity | apply IH].
Qed.

Lemma numeric_keys_length (vs : list value) (ks : list (option Z)) :
  numeric_keys vs = Ok ks -> length ks = length vs.
Proof.
  revert ks. induction vs as [|v vs IH]; intros ks Hk; simpl in Hk.
  - now injection Hk as <-.
  - destruct v as [k|s|]; [| discriminate |];
      (destruct (numeric_keys vs) as [ks'|]; [|discriminate]);
      simpl in Hk; injection Hk as <-; simpl; f_equal; now apply IH.
Qed.

Lemma contains_structure_length (structures grid : list geometry) :
  length (contains_structure structures grid) = length grid.
Proof. unfold contains_structure. apply length_map. Qed.

(** What [merged_frame] computes once the [Cell ID] column of the grid file
    is found and numeric. *)
Lemma merged_frame_ok (structures grid : GeoDataFrame geometry)
    (in_degree out_degree betweenness food_av self_recruitment : table F)
    (community : table Label) (ids : list value) (keys : list (option Z)) :
  column "Cell ID" grid = Ok ids -> numeric_keys ids = Ok keys ->
  merged_frame structures grid in_degree out_degree betweenness food_av
    self_recruitment community =
  Ok (map (fun t =>
             match t with
             | (((((((i, g), (node, ind)), outd), betw), food), sr), comm, flag) =>
                 mkrow i g node ind outd betw food sr comm flag
             end)
        (merge (fun l => Some (Z.of_nat
                                 (fst (fst (fst (fst (fst (fst (fst l)))))))))
           None
           (merge (fun l => fst (snd (fst (fst (fst (fst l)))))) None
              (merge (fun l => fst (snd (fst (fst (fst l))))) NaN
                 (merge (fun l => fst (snd (fst (fst l)))) NaN
                    (merge (fun l => fst (snd (fst l))) NaN
                       (merge (fun l => fst (snd l)) NaN
                          (merge (fun l : nat * geometry => Some (Z.of_nat (fst l)))
                             (None, NaN)
                             (combine (seq 0 (length (gdf_geometry grid)))
                                      (gdf_geometry grid))
                             (map (fun r => (fst r, (fst r, snd r))) in_degree))
                          out_degree)
                       betweenness)
                    food_av)
                 self_recruitment)
              (map (fun r => (fst r, Some (snd r))) community))
           (combine keys
              (map Some (contains_structure (gdf_geometry structures)
                                            (gdf_geometry grid)))))).
Proof.
  intros Hids Hkeys. unfold merged_frame. rewrite Hids. simpl.
  rewrite Hkeys. reflexivity.
Qed.

End MergedFacts.

(** X12: [generate_analysis_csv] needs a [Cell ID] attribute in the grid file:
    without it, whatever the other inputs are, line 49 raises a [KeyError] and
    no table is written. *)
Theorem analysis_frame_needs_cell_id
    (F : Type) (num : Number F) (inf : Infinite F) (Label : Type)
    (structures grid : GeoDataFrame geometry)
    (in_degree out_degree betweenness food_av self_recruitment : table F)
    (community : table Label) :
  find (fun c => String.eqb (fst c) "Cell ID") (gdf_columns grid) = None ->
  analysis_frame structures grid in_degree out_degree betweenness food_av
    self_recruitment community
  = Err (KeyError "['Cell ID'] not in index").
Proof.
  intros Hcol. unfold analysis_frame, merged_frame.
  rewrite (column_none "Cell ID" grid Hcol). reflexivity.
Qed.

Lemma analysis_frame_needs_cell_id_witness :
  analysis_frame (Label := Z) no_structures plain_grid
    [(Some 0%Z, 1%float)] [(Some 0%Z, 2%float)] [] [] [] []
  = Err (KeyError "['Cell ID'] not in index").
Proof.
  apply (analysis_frame_needs_cell_id float IEEE IEEE_Infinite Z).
  reflexivity.
Defined.

(** X13: when no key is repeated, neither in a metric file nor in the [Cell
    ID] attribute of the grid file, the merged frame has exactly one row for
    every grid cell, in the order of the grid: the row [cell_row] describes.
    The structure flag of the cell at position [i] is the flag computed for
    the cell whose [Cell ID] attribute is [i]. *)
Theorem merged_frame_one_row_per_cell
    (F : Type) (num : Number F) (Label : Type)
    (structures grid : GeoDataFrame geometry)
    (in_degree out_degree betweenness food_av self_recruitment : table F)
    (community : table Label) (ids : list value) (keys : list (option Z)) :
  column "Cell ID" grid = Ok ids -> numeric_keys ids = Ok keys ->
  length ids = length (gdf_geometry grid) ->
  NoDup keys ->
  NoDup (map fst in_degree) -> NoDup (map fst out_degree) ->
  NoDup (map fst betweenness) -> NoDup (map fst food_av) ->
  NoDup (map fst self_recruitment) -> NoDup (map fst community) ->
  merged_frame structures grid in_degree out_degree betweenness food_av
    self_recruitment community =
  Ok (map (cell_row in_degree out_degree betweenness food_av self_recruitment
             community
             (combine keys (contains_structure (gdf_geometry structures)
                                               (gdf_geometry grid))))
          (combine (seq 0 (length (gdf_geometry grid))) (gdf_geometry grid))).
Proof.
  intros Hids Hkeys Hlen Hk Hin Hout Hbetw Hfood Hsr Hcomm.
  rewrite (merged_frame_ok Label structures grid _ _ _ _ _ _ ids keys Hids Hkeys).
  f_equal.
  set (flags := contains_structure (gdf_geometry structures) (gdf_geometry grid)).
  assert (Hflags : length keys = length flags).
  { unfold flags. rewrite contains_structure_length, <- Hlen.
    now apply numeric_keys_length. }
  rewrite (MergeFacts.merge_unique _ (None, NaN))
    by now rewrite map_fst_map_key.
  rewrite (MergeFacts.merge_unique _ NaN _ out_degree) by exact Hout.
  rewrite (MergeFacts.merge_unique _ NaN _ betweenness) by exact Hbetw.
  rewrite (MergeFacts.merge_unique _ NaN _ food_av) by exact Hfood.
  rewrite (MergeFacts.merge_unique _ NaN _ self_recruitment) by exact Hsr.
  rewrite (MergeFacts.merge_unique _ None _ (map _ community))
    by now rewrite map_fst_map_key.
  rewrite (MergeFacts.merge_unique _ None _ (combine keys (map Some flags)))
    by (rewrite map_fst_combine; [exact Hk | now rewrite length_map]).
  rewrite !map_map. apply map_ext. intros [i g]. cbn [fst snd].
  unfold cell_row. cbn [fst snd].
  assert (E1 : lookup_or (None, NaN)
                 (map (fun r : option Z * F => (fst r, (fst r, snd r))) in_degree)
                 (Some (Z.of_nat i)) =
               (match lookup in_degree (Some (Z.of_nat i)) with
                | Some _ => Some (Z.of_nat i)
                | None => None
                end, lookup_or NaN in_degree (Some (Z.of_nat i)))).
  { unfold lookup_or. rewrite lookup_map_snd. unfold lookup.
    destruct (find (fun r => key_eqb (Some (Z.of_nat i)) (fst r)) in_degree)
      as [[k v]|] eqn:E; [|reflexivity].
    apply find_some in E. destruct E as [_ E]. cbn [fst] in E.
    apply MergeFacts.key_eqb_eq in E. now subst k. }
  rewrite E1. cbn [fst snd].
  assert (E2 : forall node,
             lookup_or None
               (map (fun r : option Z * Label => (fst r, Some (snd r))) community)
               node = lookup community node).
  { intros node. unfold lookup_or. rewrite lookup_map_snd. unfold lookup.
    now destruct (find (fun r => key_eqb node (fst r)) community). }
  rewrite E2.
  assert (E3 : lookup_or None (combine keys (map Some flags)) (Some (Z.of_nat i))
               = lookup (combine keys flags) (Some (Z.of_nat i)))
    by apply lookup_combine_some.
  rewrite E3. reflexivity.
Qed.

Module ExpandFacts.

Lemma expands_refl {A : Type} (base : list A) : expands (fun x => x) base base.
Proof.
  exists (repeat 1 (length base)). split; [apply repeat_length|]. split.
  - apply Forall_forall. intros t Ht. apply repeat_spec in Ht. lia.
  - rewrite map_id. induction base as [|a base IH]; [reflexivity|].
    simpl. now rewrite <- IH.
Qed.

Lemma merge_app {L V : Type} (lkey : L -> option Z) (missing : V)
    (l1 l2 : list L) (right : table V) :
  merge lkey missing (l1 ++ l2) right =
  merge lkey missing l1 right ++ merge lkey missing l2 right.
Proof. unfold merge. apply flat_map_app. Qed.

Lemma merge_cons {L V : Type} (lkey : L -> option Z) (missing : V)
    (l : L) (left : list L) (right : table V) :
  merge lkey missing (l :: left) right =
  merge lkey missing [l] right ++ merge lkey missing left right.
Proof. unfold merge. simpl. now rewrite app_nil_r. Qed.

Lemma length_merge_one {L V : Type} (lkey : L -> option Z) (missing : V)
    (l : L) (right : table V) :
  1 <= length (merge lkey missing [l] right).
Proof.
  unfold merge. simpl. rewrite app_nil_r.
  destruct (filter (fun r => key_eqb (lkey l) (fst r)) right) as [|r0 rs];
    simpl; lia.
Qed.

Lemma length_merge_ge {L V : Type} (lkey : L -> option Z) (missing : V)
    (left : list L) (right : table V) :
  length left <= length (merge lkey missing left right).
Proof.
  induction left as [|l left IH]; [simpl; lia|].
  rewrite merge_cons, length_app.
  pose proof (length_merge_one lkey missing l right).
  change (length (l :: left)) with (S (length left)). lia.
Qed.

Lemma merge_block {A L V : Type} (f : L -> A) (a : A) (lkey : L -> option Z)
    (missing : V) (l1 : list L) (right : table V) :
  (forall x, In x l1 -> f x = a) ->
  map (fun lv => f (fst lv)) (merge lkey missing l1 right) =
    repeat a (length (merge lkey missing l1 right)).
Proof.
  intros Hf. rewrite <- map_const. apply map_ext_in. intros [l v] Hin.
  apply MergeFacts.in_merge in Hin. simpl. apply Hf. tauto.
Qed.

Lemma expands_merge {A L V : Type} (f : L -> A) (base : list A)
    (lkey : L -> option Z) (missing : V) (left : list L) (right : table V) :
  expands f base left ->
  expands (fun lv => f (fst lv)) base (merge lkey missing left right).
Proof.
  intros (times & Hlen & Hpos & Hmap). revert left times Hlen Hpos Hmap.
  induction base as [|a base IH]; intros left [|t times] Hlen Hpos Hmap;
    try discriminate.
  - simpl in Hmap. apply map_eq_nil in Hmap. subst left.
    exists []. repeat split. constructor.
  - simpl in Hmap. apply map_eq_app in Hmap.
    destruct Hmap as (l1 & l2 & -> & H1 & H2).
    inversion Hpos as [|? ? Ht Hts]; subst.
    destruct (IH l2 times) as (times2 & Hlen2 & Hpos2 & Hmap2);
      [now injection Hlen | exact Hts | exact H2 |].
    assert (Hf : forall x, In x l1 -> f x = a).
    { intros x Hx. apply (in_map f) in Hx. rewrite H1 in Hx.
      now apply repeat_spec in Hx. }
    pose proof (merge_block f a lkey missing l1 right Hf) as Hb.
    pose proof (length_merge_ge lkey missing l1 right) as Hl.
    assert (Hl1 : length l1 = t)
      by (rewrite <- (length_map f), H1; apply repeat_length).
    exists (length (merge lkey missing l1 right) :: times2).
    split; [simpl; now rewrite Hlen2|]. split.
    + constructor; [lia | exact Hpos2].
    + rewrite merge_app, map_app, Hb, Hmap2. reflexivity.
Qed.

Lemma expands_map {A B C : Type} (f : C -> A) (g : B -> C) (base : list A)
    (l : list B) :
  expands (fun x => f (g x)) base l -> expands f base (map g l).
Proof.
  intros (times & Hlen & Hpos & Hmap). exists times.
  split; [exact Hlen|]. split; [exact Hpos|]. now rewrite map_map.
Qed.

Lemma expands_ext {A B : Type} (f g : B -> A) (base : list A) (l : list B) :
  (forall x, f x = g x) -> expands f base l -> expands g base l.
Proof.
  intros E (times & Hlen & Hpos & Hmap). exists times.
  split; [exact Hlen|]. split; [exact Hpos|].
  rewrite <- Hmap. apply map_ext. intros x. symmetry. apply E.
Qed.

End ExpandFacts.

Lemma merged_frame_inv {F : Type} {num : Number F} (Label : Type)
    (structures grid : GeoDataFrame geometry)
    (in_degree out_degree betweenness food_av self_recruitment : table F)
    (community : table Label) (merged : list (row F Label)) :
  merged_frame structures grid in_degree out_degree betweenness food_av
    self_recruitment community = Ok merged ->
  exists ids keys,
    column "Cell ID" grid = Ok ids /\ numeric_keys ids = Ok keys.
Proof.
  unfold merged_frame. intros Hrun.
  destruct (column "Cell ID" grid) as [ids|]; [|discriminate].
  simpl in Hrun.
  destruct (numeric_keys ids) as [keys|] eqn:Hkeys; [|discriminate].
  exists ids, keys. split; [reflexivity | exact Hkeys].
Qed.

(** X14: the merged frame keeps every grid cell, in the order of the grid: it
    lists the first cell one or more times, then the second cell one or more
    times, and so on.  A cell is listed more than once when a key that matches
    it is repeated in a file. *)
Theorem merged_frame_keeps_cells
    (F : Type) (num : Number F) (Label : Type)
    (structures grid : GeoDataFrame geometry)
    (in_degree out_degree betweenness food_av self_recruitment : table F)
    (community : table Label) (merged : list (row F Label)) :
  merged_frame structures grid in_degree out_degree betweenness food_av
    self_recruitment community = Ok merged ->
  exists times : list nat,
    length times = length (gdf_geometry grid) /\
    Forall (fun t => 1 <= t) times /\
    map (fun r => (Cell_ID r, cell_geometry r)) merged =
    flat_map (fun ct => repeat (fst ct) (snd ct))
      (combine (combine (seq 0 (length (gdf_geometry grid))) (gdf_geometry grid))
               times).
Proof.
  intros Hrun.
  destruct (merged_frame_inv Label _ _ _ _ _ _ _ _ _ Hrun)
    as (ids & keys & Hids & Hkeys).
  rewrite (merged_frame_ok Label structures grid _ _ _ _ _ _ ids keys Hids Hkeys)
    in Hrun.
  injection Hrun as <-.
  set (grid_df := combine (seq 0 (length (gdf_geometry grid))) (gdf_geometry grid)).
  assert (Hx : expands (fun r : row F Label => (Cell_ID r, cell_geometry r)) grid_df
                 (map (fun t =>
                         match t with
                         | (((((((i, g), (node, ind)), outd), betw), food), sr), comm, flag) =>
                             mkrow i g node ind outd betw food sr comm flag
                         end)
                    (merge (fun l => Some (Z.of_nat
                                 (fst (fst (fst (fst (fst (fst (fst l)))))))))
           None
           (merge (fun l => fst (snd (fst (fst (fst (fst l)))))) None
              (merge (fun l => fst (snd (fst (fst (fst l))))) NaN
                 (merge (fun l => fst (snd (fst (fst l)))) NaN
                    (merge (fun l => fst (snd (fst l))) NaN
                       (merge (fun l => fst (snd l)) NaN
                          (merge (fun l : nat * geometry => Some (Z.of_nat (fst l)))
                             (None, NaN) grid_df
                             (map (fun r => (fst r, (fst r, snd r))) in_degree))
                          out_degree)
                       betweenness)
                    food_av)
                 self_recruitment)
              (map (fun r => (fst r, Some (snd r))) community))
           (combine keys
              (map Some (contains_structure (gdf_geometry structures)
                                            (gdf_geometry grid))))))).
  { apply ExpandFacts.expands_map.
    eapply ExpandFacts.expands_ext;
      [|do 7 apply ExpandFacts.expands_merge; apply ExpandFacts.expands_refl].
    intros [[[[[[[[i g] [node ind]] outd] betw] food] sr] comm] flag].
    reflexivity. }
  destruct Hx as (times & Hlen & Hpos & Hmap).
  exists times. split; [|split; [exact Hpos | exact Hmap]].
  rewrite Hlen. unfold grid_df. rewrite length_combine, length_seq.
  apply Nat.min_id.
Qed.

Lemma merged_frame_keeps_cells_witness :
  exists times : list nat,
    length times = length (gdf_geometry numbered_grid) /\
    Forall (fun t => 1 <= t) times /\
    map (fun r : row float Z => (Cell_ID r, cell_geometry r))
        [mkrow 0 (Geo.box 0 0 1 1) (Some 0%Z) 5%float nan nan nan nan None
               (Some false);
         mkrow 0 (Geo.box 0 0 1 1) (Some 0%Z) 6%float nan nan nan nan None
               (Some false);
         mkrow 1 (Geo.box 1 0 2 1) None nan nan nan nan nan None
               (Some false)] =
    flat_map (fun ct => repeat (fst ct) (snd ct))
      (combine (combine (seq 0 (length (gdf_geometry numbered_grid)))
                        (gdf_geometry numbered_grid))
               times).
Proof.
  apply (merged_frame_keeps_cells float IEEE Z no_structures numbered_grid
           [(Some 0%Z, 5%float); (Some 0%Z, 6%float)] [] [] [] [] []).
  vm_compute. reflexivity.
Defined.

(** X15: a cell that the in-degree file does not list gets no [Node], and with
    it no value from any other file, whatever those files hold for the cell
    (provided none of them has a row with an empty [Node]). *)
Theorem merged_frame_in_degree_gate
    (F : Type) (num : Number F) (Label : Type)
    (structures grid : GeoDataFrame geometry)
    (in_degree out_degree betweenness food_av self_recruitment : table F)
    (community : table Label) (merged : list (row F Label)) (r : row F Label) :
  merged_frame structures grid in_degree out_degree betweenness food_av
    self_recruitment community = Ok merged ->
  In r merged ->
  (forall v, ~ In (Some (Z.of_nat (Cell_ID r)), v) in_degree) ->
  (forall v, ~ In (None, v) out_degree) ->
  (forall v, ~ In (None, v) betweenness) ->
  (forall v, ~ In (None, v) food_av) ->
  (forall v, ~ In (None, v) self_recruitment) ->
  (forall v, ~ In (None, v) community) ->
  Node r = None /\ In_Degree r = NaN /\ Out_Degree r = NaN /\
  Betweenness r = NaN /\ Food_Availability r = NaN /\
  Self_Recruitment r = NaN /\ Community r = None.
Proof.
  intros Hrun Hr Hin Hout Hbetw Hfood Hsr Hcomm.
  destruct (merged_frame_inv Label _ _ _ _ _ _ _ _ _ Hrun)
    as (ids & keys & Hids & Hkeys).
  rewrite (merged_frame_ok Label structures grid _ _ _ _ _ _ ids keys Hids Hkeys)
    in Hrun.
  injection Hrun as <-.
  apply in_map_iff in Hr.
  destruct Hr as ([[[[[[[[i g] [node ind]] outd] betw] food] sr] comm] flag]
                  & <- & Ht).
  cbn [Cell_ID] in Hin. cbn [Node In_Degree Out_Degree Betweenness
                             Food_Availability Self_Recruitment Community].
  apply MergeFacts.in_merge in Ht. destruct Ht as [Ht _].
  apply MergeFacts.in_merge in Ht. destruct Ht as [Ht H6]. cbn [fst snd] in H6.
  apply MergeFacts.in_merge in Ht. destruct Ht as [Ht H5]. cbn [fst snd] in H5.
  apply MergeFacts.in_merge in Ht. destruct Ht as [Ht H4]. cbn [fst snd] in H4.
  apply MergeFacts.in_merge in Ht. destruct Ht as [Ht H3]. cbn [fst snd] in H3.
  apply MergeFacts.in_merge in Ht. destruct Ht as [Ht H2]. cbn [fst snd] in H2.
  apply MergeFacts.in_merge in Ht. destruct Ht as [_ H1]. cbn [fst snd] in H1.
  assert (E1 : node = None /\ ind = NaN).
  { destruct H1 as [H1 | [_ H1]]; [|now injection H1].
    apply in_map_iff in H1. destruct H1 as ([k v] & E & Hkv).
    cbn [fst snd] in E. injection E as -> _ _. now destruct (Hin v). }
  destruct E1 as [-> ->].
  assert (E2 : outd = NaN)
    by (destruct H2 as [H2 | [_ H2]]; [now destruct (Hout outd) | exact H2]).
  assert (E3 : betw = NaN)
    by (destruct H3 as [H3 | [_ H3]]; [now destruct (Hbetw betw) | exact H3]).
  assert (E4 : food = NaN)
    by (destruct H4 as [H4 | [_ H4]]; [now destruct (Hfood food) | exact H4]).
  assert (E5 : sr = NaN)
    by (destruct H5 as [H5 | [_ H5]]; [now destruct (Hsr sr) | exact H5]).
  assert (E6 : comm = None).
  { destruct H6 as [H6 | [_ H6]]; [|exact H6].
    apply in_map_iff in H6. destruct H6 as ([k v] & E & Hkv).
    cbn [fst snd] in E. injection E as -> _. now destruct (Hcomm v). }
  now subst.
Qed.

Lemma merged_frame_one_row_per_cell_witness :
  merged_frame (Label := Z) no_structures numbered_grid
    [(Some 0%Z, 5%float); (Some 1%Z, 7%float)] [(Some 1%Z, 2%float)] [] [] [] []
  = Ok (map (cell_row [(Some 0%Z, 5%float); (Some 1%Z, 7%float)]
               [(Some 1%Z, 2%float)] [] [] [] []
               (combine [Some 0%Z; Some 1%Z]
                  (contains_structure (gdf_geometry no_structures)
                                      (gdf_geometry numbered_grid))))
          (combine (seq 0 (length (gdf_geometry numbered_grid)))
                   (gdf_geometry numbered_grid))).
Proof.
  apply (merged_frame_one_row_per_cell float IEEE Z no_structures numbered_grid
           [(Some 0%Z, 5%float); (Some 1%Z, 7%float)] [(Some 1%Z, 2%float)]
           [] [] [] [] [VInt 0; VInt 1] [Some 0%Z; Some 1%Z]).
  - reflexivity.
  - reflexivity.
  - reflexivity.
  - constructor; [intros [E | []]; discriminate|].
    constructor; [intros [] | constructor].
  - constructor; [intros [E | []]; discriminate|].
    constructor; [intros [] | constructor].
  - constructor; [intros [] | constructor].
  - constructor.
  - constructor.
  - constructor.
  - constructor.
Defined.

Lemma merged_frame_in_degree_gate_witness :
  Node (mkrow (F := float) (Label := Z) 1 (Geo.box 1 0 2 1) None nan nan nan
              nan nan None (Some false)) = None /\
  In_Degree (mkrow (F := float) (Label := Z) 1 (Geo.box 1 0 2 1) None nan nan
                   nan nan nan None (Some false)) = NaN /\
  Out_Degree (mkrow (F := float) (Label := Z) 1 (Geo.box 1 0 2 1) None nan nan
                    nan nan nan None (Some false)) = NaN /\
  Betweenness (mkrow (F := float) (Label := Z) 1 (Geo.box 1 0 2 1) None nan
                     nan nan nan nan None (Some false)) = NaN /\
  Food_Availability (mkrow (F := float) (Label := Z) 1 (Geo.box 1 0 2 1) None
                           nan nan nan nan nan None (Some false)) = NaN /\
  Self_Recruitment (mkrow (F := float) (Label := Z) 1 (Geo.box 1 0 2 1) None
                          nan nan nan nan nan None (Some false)) = NaN /\
  Community (mkrow (F := float) (Label := Z) 1 (Geo.box 1 0 2 1) None nan nan
                   nan nan nan None (Some false)) = None.
Proof.
  apply (merged_frame_in_degree_gate float IEEE Z no_structures numbered_grid
           [(Some 0%Z, 5%float)] [(Some 1%Z, 9%float)] [] [] [] [(Some 1%Z, 3%Z)]
           [mkrow 0 (Geo.box 0 0 1 1) (Some 0%Z) 5%float nan nan nan nan None
                  (Some false);
            mkrow 1 (Geo.box 1 0 2 1) None nan nan nan nan nan None
                  (Some false)]).
  - vm_compute. reflexivity.
  - right. left. reflexivity.
  - intros v [E | []]. discriminate.
  - intros v [E | []]. discriminate.
  - intros v [].
  - intros v [].
  - intros v [].
  - intros v [E | []]. discriminate.
Defined.

(** X16: a grid file without cells makes [generate_analysis_csv] fail: the
    merged frame has no row, and the scaler rejects it with a [ValueError]. *)
Theorem analysis_frame_empty_grid
    (F : Type) (num : Number F) (inf : Infinite F) (Label : Type)
    (structures grid : GeoDataFrame geometry)
    (in_degree out_degree betweenness food_av self_recruitment : table F)
    (community : table Label) :
  gdf_geometry grid = [] ->
  column "Cell ID" grid = Ok [] ->
  analysis_frame structures grid in_degree out_degree betweenness food_av
    self_recruitment community
  = Err (ValueError "Found array with 0 sample(s) (shape=(0, 4)) while a minimum of 1 is required by MinMaxScaler.").
Proof.
  intros Hgeo Hids. unfold analysis_frame.
  rewrite (merged_frame_ok Label structures grid _ _ _ _ _ _ [] [] Hids eq_refl).
  rewrite Hgeo. reflexivity.
Qed.

Lemma analysis_frame_empty_grid_witness :
  analysis_frame (Label := Z) no_structures empty_grid
    [(Some 0%Z, 1%float)] [] [] [] [] []
  = Err (ValueError "Found array with 0 sample(s) (shape=(0, 4)) while a minimum of 1 is required by MinMaxScaler.").
Proof.
  apply (analysis_frame_empty_grid float IEEE IEEE_Infinite Z).
  - reflexivity.
  - reflexivity.
Defined.

Lemma existsb_isinf_in {F : Type} {inf : Infinite F} {A : Type} (f : A -> F)
    (l : list A) (a : A) :
  In a l -> isinf (f a) = true -> existsb isinf (map f l) = true.
Proof.
  intros Hin Hinf. apply existsb_exists. exists (f a).
  split; [now apply in_map | exact Hinf].
Qed.

(** X17: an infinite value of one of the four metrics that are normalized, in
    any row of the merged frame, makes [generate_analysis_csv] fail with the
    scaler's [ValueError]. *)
Theorem analysis_frame_rejects_infinity
    (F : Type) (num : Number F) (inf : Infinite F) (Label : Type)
    (structures grid : GeoDataFrame geometry)
    (in_degree out_degree betweenness food_av self_recruitment : table F)
    (community : table Label) (merged : list (row F Label)) (r : row F Label) :
  merged_frame structures grid in_degree out_degree betweenness food_av
    self_recruitment community = Ok merged ->
  In r merged ->
  isinf (Out_Degree r) = true \/ isinf (In_Degree r) = true \/
  isinf (Betweenness r) = true \/ isinf (Food_Availability r) = true ->
  analysis_frame structures grid in_degree out_degree betweenness food_av
    self_recruitment community
  = Err (ValueError "Input X contains infinity or a value too large for dtype('float64').").
Proof.
  intros Hrun Hr Hinf. unfold analysis_frame. rewrite Hrun. simpl bind.
  unfold check_array.
  assert (E : existsb (existsb isinf)
                [map Out_Degree merged; map In_Degree merged;
                 map Betweenness merged; map Food_Availability merged] = true).
  { cbn [existsb]. rewrite !orb_true_iff.
    destruct Hinf as [Hi | [Hi | [Hi | Hi]]].
    - left. eapply existsb_isinf_in; eassumption.
    - right. left. eapply existsb_isinf_in; eassumption.
    - right. right. left. eapply existsb_isinf_in; eassumption.
    - right. right. right. left. eapply existsb_isinf_in; eassumption. }
  rewrite E. reflexivity.
Qed.

Lemma analysis_frame_rejects_infinity_witness :
  analysis_frame (Label := Z) no_structures numbered_grid
    [(Some 0%Z, 5%float); (Some 1%Z, infinity)] [] [] [] [] []
  = Err (ValueError "Input X contains infinity or a value too large for dtype('float64').").
Proof.
  apply (analysis_frame_rejects_infinity float IEEE IEEE_Infinite Z
           no_structures numbered_grid
           [(Some 0%Z, 5%float); (Some 1%Z, infinity)] [] [] [] [] []
           [mkrow 0 (Geo.box 0 0 1 1) (Some 0%Z) 5%float nan nan nan nan None
                  (Some false);
            mkrow 1 (Geo.box 1 0 2 1) (Some 1%Z) infinity nan nan nan nan None
                  (Some false)]
           (mkrow 1 (Geo.box 1 0 2 1) (Some 1%Z) infinity nan nan nan nan None
                  (Some false))).
  - vm_compute. reflexivity.
  - right. left. reflexivity.
  - right. left. reflexivity.
Defined.

Module SingleRow.

Local Open Scope float_scope.




End SingleRow.



(** ** process_nc_to_csv *)

Module OutcomeFacts.

Lemma comprehension_returns {A B : Type} (f : A -> outcome B) (g : A -> B)
    (l : list A) :
  (forall a, In a l -> f a = Returns (g a)) ->
  comprehension f l = Returns (map g l).
Proof.
  induction l as [|a l IH]; intros Hf; [reflexivity|].
  simpl. rewrite (Hf a (or_introl eq_refl)). simpl.
  rewrite IH by (intros a' Ha'; apply Hf; now right). reflexivity.
Qed.

Lemma comprehension_raises {A B : Type} (f : A -> outcome B) (e : error)
    (l : list A) (a : A) :
  In a l -> f a = Raises e ->
  (forall a', In a' l -> (exists b, f a' = Returns b) \/ f a' = Raises e) ->
  comprehension f l = Raises e.
Proof.
  induction l as [|a' l IH]; intros Hin Ha Hall; [destruct Hin|].
  simpl. destruct (Hall a' (or_introl eq_refl)) as [[b Hb] | Hr].
  - rewrite Hb. simpl.
    destruct Hin as [-> | Hin]; [congruence|].
    rewrite IH; [reflexivity | exact Hin | exact Ha |].
    intros a'' Ha''. apply Hall. now right.
  - now rewrite Hr.
Qed.

End OutcomeFacts.

Section ParticleFacts.

Variables Point Polygon : Type.
Variable within : Point -> Polygon -> bool.
Variable mkPoint : float -> float -> Point.

(** On a file with a time step and a column for every particle, the
    identifiers are 1, 2, ... and the positions are those of the first and
    of the last time step. *)
Lemma extract_particle_positions_tracked (fs : nc_files particle_dataset)
    (nc_file : string) (dataset : particle_dataset) :
  fs nc_file = Some dataset -> tracked dataset ->
  extract_particle_positions mkPoint fs nc_file =
  Returns
    (map Z.of_nat (seq 1 (particles dataset)),
     map (fun i => mkPoint (item2 (x_var dataset) 0 i)
                           (item2 (y_var dataset) 0 i))
         (seq 0 (particles dataset)),
     map (fun i => mkPoint
                     (item2 (x_var dataset) (fst (shape2 (x_var dataset)) - 1) i)
                     (item2 (y_var dataset) (fst (shape2 (y_var dataset)) - 1) i))
         (seq 0 (particles dataset))).
Proof.
  intros Hfs (Hx & Hy & Hwx & Hwy).
  unfold extract_particle_positions, Dataset. rewrite Hfs. simpl.
  rewrite (OutcomeFacts.comprehension_returns _
             (fun i => mkPoint (item2 (x_var dataset) 0 i)
                               (item2 (y_var dataset) 0 i))).
  - simpl.
    rewrite (OutcomeFacts.comprehension_returns _
               (fun i => mkPoint
                  (item2 (x_var dataset) (fst (shape2 (x_var dataset)) - 1) i)
                  (item2 (y_var dataset) (fst (shape2 (y_var dataset)) - 1) i))).
    + reflexivity.
    + intros i Hi. apply in_seq in Hi. unfold getitem2_last.
      replace (0 <? fst (shape2 (x_var dataset))) with true
        by (symmetry; apply Nat.ltb_lt; lia).
      replace (0 <? fst (shape2 (y_var dataset))) with true
        by (symmetry; apply Nat.ltb_lt; lia).
      replace (i <? snd (shape2 (x_var dataset))) with true
        by (symmetry; apply Nat.ltb_lt; lia).
      replace (i <? snd (shape2 (y_var dataset))) with true
        by (symmetry; apply Nat.ltb_lt; lia).
      reflexivity.
  - intros i Hi. apply in_seq in Hi. unfold getitem2.
    replace (0 <? fst (shape2 (x_var dataset))) with true
      by (symmetry; apply Nat.ltb_lt; lia).
    replace (0 <? fst (shape2 (y_var dataset))) with true
      by (symmetry; apply Nat.ltb_lt; lia).
    replace (i <? snd (shape2 (x_var dataset))) with true
      by (symmetry; apply Nat.ltb_lt; lia).
    replace (i <? snd (shape2 (y_var dataset))) with true
      by (symmetry; apply Nat.ltb_lt; lia).
    reflexivity.
Qed.

End ParticleFacts.

Lemma combine_map_same {A B C : Type} (f : A -> B) (g : A -> C) (l : list A) :
  combine (map f l) (map g l) = map (fun a => (f a, g a)) l.
Proof. induction l as [|a l IH]; [reflexivity | simpl; now rewrite IH]. Qed.

(** X19: the table of [process_nc_to_csv], particle by particle.  On a
    particle file with a time step and a column for every particle, with a
    grid file that carries a [Release_poly] attribute and of whose polygons no
    first or last position is within two: particle [i] (counted from 0) gets
    the identifier [i + 1]; its [Release_poly] is the attribute of the polygon
    that its position at the first time step is within, or NaN; its
    [Settlement_poly] is the position in the grid of the polygon that its
    position at the last time step is within, or ['outside grid domain']. *)
Theorem process_nc_to_csv_rows
    (Point Polygon : Type) (within : Point -> Polygon -> bool)
    (mkPoint : float -> float -> Point)
    (nc : nc_files particle_dataset) (fs : filesystem Polygon)
    (nc_file shapefile : string) (dataset : particle_dataset)
    (grid : GeoDataFrame Polygon) (c : string * list value) :
  nc nc_file = Some dataset -> tracked dataset ->
  fs shapefile = Some grid ->
  find (fun c => String.eqb (fst c) "Release_poly") (gdf_columns grid)
    = Some c ->
  (forall p, length (matches within p (gdf_geometry grid)) <= 1) ->
  process_nc_to_csv within mkPoint nc fs nc_file shapefile =
  Returns
    (map (fun i =>
            mkassignment (Z.of_nat (S i))
              match hd_error
                      (matches within
                         (mkPoint (item2 (x_var dataset) 0 i)
                                  (item2 (y_var dataset) 0 i))
                         (gdf_geometry grid)) with
              | Some j => nth j (snd c) VNaN
              | None => VNaN
              end
              match hd_error
                      (matches within
                         (mkPoint
                            (item2 (x_var dataset)
                                   (fst (shape2 (x_var dataset)) - 1) i)
                            (item2 (y_var dataset)
                                   (fst (shape2 (y_var dataset)) - 1) i))
                         (gdf_geometry grid)) with
              | Some j => VInt (Z.of_nat j)
              | None => VStr "outside grid domain"
              end)
         (seq 0 (particles dataset))).
Proof.
  intros Hnc Htracked Hfs Hcol Hone. unfold process_nc_to_csv.
  rewrite (extract_particle_positions_tracked _ mkPoint nc nc_file dataset
             Hnc Htracked).
  cbn [obind].
  rewrite (assign_polygons_table _ _ within fs _ _ _ shapefile grid c Hfs).
  - cbn [lift]. f_equal.
    rewrite <- seq_shift, map_map, !combine_map_same, map_map. reflexivity.
  - now rewrite !length_map, !length_seq.
  - now rewrite !length_map, !length_seq.
  - exact Hcol.
  - intros p Hp. apply in_app_or in Hp.
    destruct Hp as [Hp | Hp]; apply in_map_iff in Hp;
      destruct Hp as (i & <- & _); apply Hone.
Qed.

Lemma process_nc_to_csv_rows_witness :
  process_nc_to_csv within_interval line_point example_nc named_fs
    "particles.nc" "grid.shp" =
  Returns
    (map (fun i =>
            mkassignment (Z.of_nat (S i))
              match hd_error
                      (matches within_interval
                         (line_point (item2 (x_var example_track) 0 i)
                                     (item2 (y_var example_track) 0 i))
                         (gdf_geometry named_intervals)) with
              | Some j => nth j [VInt 7; VInt 9] VNaN
              | None => VNaN
              end
              match hd_error
                      (matches within_interval
                         (line_point
                            (item2 (x_var example_track)
                                   (fst (shape2 (x_var example_track)) - 1) i)
                            (item2 (y_var example_track)
                                   (fst (shape2 (y_var example_track)) - 1) i))
                         (gdf_geometry named_intervals)) with
              | Some j => VInt (Z.of_nat j)
              | None => VStr "outside grid domain"
              end)
         (seq 0 (particles example_track))).
Proof.
  apply (process_nc_to_csv_rows Z (Z * Z)%type within_interval line_point
           example_nc named_fs "particles.nc" "grid.shp" example_track
           named_intervals ("Release_poly"%string, [VInt 7; VInt 9])).
  - reflexivity.
  - unfold tracked. simpl. lia.
  - reflexivity.
  - reflexivity.
  - intros p. unfold matches, within_interval. simpl.
    destruct (0 <? p)%Z eqn:E1, (p <? 5)%Z eqn:E2, (20 <? p)%Z eqn:E3,
             (p <? 30)%Z eqn:E4; simpl; lia.
Defined.

(** X20: with a grid file that has no [Release_poly] attribute (a grid of
    polygons and nothing else), [process_nc_to_csv] raises [KeyError] and
    writes no table, whatever the particles do. *)
Theorem process_nc_to_csv_needs_release_poly
    (Point Polygon : Type) (within : Point -> Polygon -> bool)
    (mkPoint : float -> float -> Point)
    (nc : nc_files particle_dataset) (fs : filesystem Polygon)
    (nc_file shapefile : string) (dataset : particle_dataset)
    (grid : GeoDataFrame Polygon) :
  nc nc_file = Some dataset -> tracked dataset ->
  fs shapefile = Some grid ->
  find (fun c => String.eqb (fst c) "Release_poly") (gdf_columns grid) = None ->
  process_nc_to_csv within mkPoint nc fs nc_file shapefile =
  Raises (Exn (KeyError "Release_poly")).
Proof.
  intros Hnc Htracked Hfs Hcol. unfold process_nc_to_csv.
  rewrite (extract_particle_positions_tracked _ mkPoint nc nc_file dataset
             Hnc Htracked).
  cbn [obind].
  rewrite (assign_polygons_no_release_column _ _ within fs _ _ _ shapefile grid
             Hfs); [reflexivity | | | exact Hcol];
    now rewrite !length_map, !length_seq.
Qed.

Lemma process_nc_to_csv_needs_release_poly_witness :
  process_nc_to_csv within_interval line_point example_nc intervals_fs
    "particles.nc" "grid.shp" =
  Raises (Exn (KeyError "Release_poly")).
Proof.
  apply (process_nc_to_csv_needs_release_poly Z (Z * Z)%type within_interval
           line_point example_nc intervals_fs "particles.nc" "grid.shp"
           example_track intervals).
  - reflexivity.
  - unfold tracked. simpl. lia.
  - reflexivity.
  - reflexivity.
Defined.

(** X21: a particle file that lists particles but holds no time step makes
    [process_nc_to_csv] raise [IndexError] at the first position it reads,
    before the grid file is opened. *)
Theorem process_nc_to_csv_no_time_step
    (Point Polygon : Type) (within : Point -> Polygon -> bool)
    (mkPoint : float -> float -> Point)
    (nc : nc_files particle_dataset) (fs : filesystem Polygon)
    (nc_file shapefile : string) (dataset : particle_dataset) :
  nc nc_file = Some dataset ->
  0 < particles dataset ->
  fst (shape2 (x_var dataset)) = 0 \/ fst (shape2 (y_var dataset)) = 0 ->
  process_nc_to_csv within mkPoint nc fs nc_file shapefile = Raises IndexError.
Proof.
  intros Hnc Hn Hempty.
  unfold process_nc_to_csv, extract_particle_positions, Dataset.
  rewrite Hnc. cbn [obind].
  destruct (particles dataset) as [|n]; [lia|].
  cbn [seq comprehension]. unfold getitem2 at 1 2.
  destruct Hempty as [-> | ->].
  - reflexivity.
  - destruct ((0 <? fst (shape2 (x_var dataset))) &&
              (0 <? snd (shape2 (x_var dataset)))); reflexivity.
Qed.

Lemma process_nc_to_csv_no_time_step_witness :
  process_nc_to_csv within_interval line_point empty_nc named_fs
    "particles.nc" "grid.shp" = Raises IndexError.
Proof.
  apply (process_nc_to_csv_no_time_step Z (Z * Z)%type within_interval
           line_point empty_nc named_fs "particles.nc" "grid.shp" empty_track).
  - reflexivity.
  - simpl. lia.
  - left. reflexivity.
Defined.

(** ** process_ersem_to_polygons *)

Section ExtractFacts.

Context {F : Type} `{Number F}.
Variable date : Type.
Variable date_leb : date -> date -> bool.
Variable num2date : F -> string -> date.

Lemma where_in_range_lt (time_dates : list date) (start_time end_time : date)
    (t : nat) :
  In t (where_in_range date_leb time_dates start_time end_time) ->
  t < length time_dates.
Proof.
  unfold where_in_range. intros Hin. apply in_map_iff in Hin.
  destruct Hin as ([t' d] & <- & Hin). apply filter_In in Hin.
  destruct Hin as [Hin _]. apply in_combine_l in Hin.
  apply in_seq in Hin. simpl. lia.
Qed.

Lemma where_in_range_nil (time_dates : list date) (start_time end_time : date) :
  (forall d, In d time_dates ->
     date_leb start_time d && date_leb d end_time = false) ->
  where_in_range date_leb time_dates start_time end_time = [].
Proof.
  intros Hout. unfold where_in_range.
  destruct (filter _ _) as [|[t d] l] eqn:E; [reflexivity|].
  assert (Hin : In (t, d) (filter
                     (fun it => date_leb start_time (snd it) &&
                                date_leb (snd it) end_time)
                     (combine (seq 0 (length time_dates)) time_dates)))
    by (rewrite E; now left).
  apply filter_In in Hin. destruct Hin as [Hin Hd].
  apply in_combine_r in Hin. simpl in Hd. now rewrite (Hout d Hin) in Hd.
Qed.

Lemma getitem3_top_laid_out (P : ndarray3 F) (time_indices : list nat) :
  0 < snd (fst (shape3 P)) ->
  (forall t, In t time_indices -> t < fst (fst (shape3 P))) ->
  getitem3_top P time_indices =
  Returns (map (fun t => map (fun j => item3 P t 0 j) (seq 0 (snd (shape3 P))))
               time_indices).
Proof.
  intros Hlayers Hidx. unfold getitem3_top.
  destruct (shape3 P) as [[times layers] nodes]. simpl in *.
  replace (0 <? layers) with true by (symmetry; apply Nat.ltb_lt; lia).
  assert (E : forallb (fun t => t <? times) time_indices = true).
  { apply forallb_forall. intros t Ht. apply Nat.ltb_lt. now apply Hidx. }
  now rewrite E.
Qed.

Lemma nth_map_seq {A : Type} (f : nat -> A) (n j : nat) (d : A) :
  j < n -> nth j (map f (seq 0 n)) d = f j.
Proof.
  intros Hj. rewrite (nth_indep _ d (f 0)) by now rewrite length_map, length_seq.
  rewrite (map_nth f (seq 0 n) 0 j), seq_nth by exact Hj. reflexivity.
Qed.

(** Masking and averaging the rows taken from [P] gives, node by node,
    [node_mean]. *)
Lemma nanmean_axis0_top (fill_value : F) (P : ndarray3 F)
    (time_indices : list nat) (nodes : nat) :
  nanmean_axis0 nodes
    (mask_fill fill_value
       (map (fun t => map (fun j => item3 P t 0 j) (seq 0 nodes)) time_indices)) =
  map (node_mean fill_value P time_indices) (seq 0 nodes).
Proof.
  unfold nanmean_axis0, node_mean, mask_fill. apply map_ext_in.
  intros j Hj. apply in_seq in Hj. f_equal. rewrite !map_map.
  apply map_ext. intros t. rewrite map_map.
  apply (nth_map_seq (fun j => if feq (item3 P t 0 j) fill_value then NaN
                               else item3 P t 0 j)).
  lia.
Qed.

Lemma add_arrays_same {A : Type} (f g : A -> F) (l : list A) :
  add_arrays (map f l) (map g l) = Ok (map (fun a => fadd (f a) (g a)) l).
Proof.
  unfold add_arrays. rewrite !length_map, Nat.eqb_refl.
  now rewrite combine_map_same, map_map.
Qed.

Lemma ersem_frame_same (lon lat : list F) (total : nat -> F) :
  length lat = length lon ->
  ersem_frame lon lat (map total (seq 0 (length lon))) =
  Ok (map (fun j => (nth j lon NaN, nth j lat NaN, total j))
          (seq 0 (length lon))).
Proof.
  intros Hlen. unfold ersem_frame.
  rewrite length_map, length_seq, Hlen, !Nat.eqb_refl. simpl. f_equal.
  rewrite <- (SumFacts.map_nth_seq lon NaN) at 1.
  rewrite <- (SumFacts.map_nth_seq lat NaN) at 1.
  rewrite Hlen, !combine_map_same. reflexivity.
Qed.

(** [extract_and_average_ersem], node by node: on a file laid out as
    required, with a time stamp in the range, the frame has one row for every
    node, with the node's [lon] and [lat], and a [Total_P] that is the sum of
    the four means over the time stamps in the range. *)
Lemma extract_and_average_ersem_nodes (fs : nc_files (ersem_dataset F))
    (nc_file : string) (start_time end_time : date)
    (dataset : ersem_dataset F) :
  fs nc_file = Some dataset -> laid_out dataset ->
  where_in_range date_leb
    (map (fun t => num2date t (time_units dataset)) (time_var dataset))
    start_time end_time <> [] ->
  extract_and_average_ersem date_leb num2date fs nc_file start_time end_time =
  Returns
    (map (fun j =>
            (nth j (lon_var dataset) NaN, nth j (lat_var dataset) NaN,
             node_total dataset
               (where_in_range date_leb
                  (map (fun t => num2date t (time_units dataset))
                       (time_var dataset))
                  start_time end_time) j))
         (seq 0 (length (lon_var dataset)))).
Proof.
  intros Hfs [Hlat Hshape] Hsome.
  unfold extract_and_average_ersem, Dataset. rewrite Hfs. cbn [obind].
  set (idx := where_in_range date_leb
                (map (fun t => num2date t (time_units dataset))
                     (time_var dataset)) start_time end_time) in *.
  destruct (Nat.eqb (length idx) 0) eqn:E.
  { apply Nat.eqb_eq in E. destruct idx; [now destruct Hsome | discriminate]. }
  assert (Hidx : forall t, In t idx -> t < length (time_var dataset)).
  { intros t Ht. apply where_in_range_lt in Ht. now rewrite length_map in Ht. }
  assert (Hget : forall P,
             In P [P1_c_var dataset; P2_c_var dataset; P3_c_var dataset;
                   P4_n_var dataset] ->
             getitem3_top P idx =
             Returns (map (fun t => map (fun j => item3 P t 0 j)
                                        (seq 0 (length (lon_var dataset))))
                          idx) /\
             snd (shape3 P) = length (lon_var dataset)).
  { intros P HP. destruct (Hshape P HP) as (Ht & Hl & Hn). split; [|exact Hn].
    rewrite <- Hn. apply getitem3_top_laid_out; [exact Hl|].
    intros t Hin. rewrite Ht. now apply Hidx. }
  destruct (Hget (P1_c_var dataset)) as [-> N1]; [simpl; tauto|].
  destruct (Hget (P2_c_var dataset)) as [-> N2]; [simpl; tauto|].
  destruct (Hget (P3_c_var dataset)) as [-> N3]; [simpl; tauto|].
  destruct (Hget (P4_n_var dataset)) as [-> N4]; [simpl; tauto|].
  cbn [obind]. cbv zeta. rewrite N1, N2, N3, N4, !nanmean_axis0_top.
  rewrite add_arrays_same. cbn [bind].
  rewrite add_arrays_same. cbn [bind].
  rewrite add_arrays_same. cbn [bind].
  rewrite (ersem_frame_same _ _ _ Hlat). reflexivity.
Qed.

End ExtractFacts.

(** X22: when no time stamp of the file lies between [start_time] and
    [end_time] (both ends included), [extract_and_average_ersem] raises the
    [ValueError] of line 53, and so does [process_ersem_to_polygons], before
    it opens the grid file. *)
Theorem process_ersem_to_polygons_no_data
    (F : Type) (num : Number F) (date : Type) (date_leb : date -> date -> bool)
    (num2date : F -> string -> date)
    (Point Polygon : Type) (within : Point -> Polygon -> bool)
    (points_from_xy : F -> F -> Point)
    (nc : nc_files (ersem_dataset F)) (fs : filesystem Polygon)
    (nc_file shapefile : string) (start_time end_time : date)
    (dataset : ersem_dataset F) :
  nc nc_file = Some dataset ->
  (forall t, In t (time_var dataset) ->
     date_leb start_time (num2date t (time_units dataset)) &&
     date_leb (num2date t (time_units dataset)) end_time = false) ->
  extract_and_average_ersem date_leb num2date nc nc_file start_time end_time =
    Raises (Exn (ValueError "No data found within the specified time range.")) /\
  process_ersem_to_polygons date_leb num2date within points_from_xy nc fs
    nc_file shapefile start_time end_time =
    Raises (Exn (ValueError "No data found within the specified time range.")).
Proof.
  intros Hnc Hout.
  assert (E : extract_and_average_ersem date_leb num2date nc nc_file
                start_time end_time =
              Raises (Exn (ValueError "No data found within the specified time range."))).
  { unfold extract_and_average_ersem, Dataset. rewrite Hnc. cbn [obind].
    rewrite where_in_range_nil; [reflexivity|].
    intros d Hd. apply in_map_iff in Hd. destruct Hd as (t & <- & Ht).
    now apply Hout. }
  split; [exact E|]. unfold process_ersem_to_polygons. now rewrite E.
Qed.

Lemma process_ersem_to_polygons_no_data_witness :
  extract_and_average_ersem Z.leb day_of example_output_nc "ersem_output.nc"
    5%Z 9%Z =
    Raises (Exn (ValueError "No data found within the specified time range.")) /\
  process_ersem_to_polygons Z.leb day_of within_interval
    (fun lon lat => day_of lon "") example_output_nc intervals_fs
    "ersem_output.nc" "missing.shp" 5%Z 9%Z =
    Raises (Exn (ValueError "No data found within the specified time range.")).
Proof.
  apply (process_ersem_to_polygons_no_data float IEEE Z Z.leb day_of
           Z (Z * Z)%type within_interval (fun lon lat => day_of lon "")
           example_output_nc intervals_fs "ersem_output.nc" "missing.shp"
           5%Z 9%Z example_output).
  - reflexivity.
  - apply Forall_forall.
    repeat (apply Forall_cons; [vm_compute; reflexivity|]). apply Forall_nil.
Defined.

(** X23: [extract_and_average_ersem], node by node: on a file laid out as the
    header of the script requires and with a time stamp in the range, the
    frame has one row for every node, in order, with the node's [lon] and
    [lat] and, as [Total_P], the sum of the four means over the time stamps in
    the range, each mean leaving out the entries that are NaN or equal to the
    fill value of [P1_c]. *)
Theorem extract_and_average_ersem_by_node
    (F : Type) (num : Number F) (date : Type) (date_leb : date -> date -> bool)
    (num2date : F -> string -> date)
    (fs : nc_files (ersem_dataset F)) (nc_file : string)
    (start_time end_time : date) (dataset : ersem_dataset F) :
  fs nc_file = Some dataset -> laid_out dataset ->
  where_in_range date_leb
    (map (fun t => num2date t (time_units dataset)) (time_var dataset))
    start_time end_time <> [] ->
  extract_and_average_ersem date_leb num2date fs nc_file start_time end_time =
  Returns
    (map (fun j =>
            (nth j (lon_var dataset) NaN, nth j (lat_var dataset) NaN,
             node_total dataset
               (where_in_range date_leb
                  (map (fun t => num2date t (time_units dataset))
                       (time_var dataset))
                  start_time end_time) j))
         (seq 0 (length (lon_var dataset)))).
Proof.
  intros Hfs Hlaid Hsome.
  now apply extract_and_average_ersem_nodes.
Qed.


Lemma extract_and_average_ersem_by_node_witness :
  extract_and_average_ersem Z.leb day_of example_output_nc "ersem_output.nc"
    1%Z 2%Z =
  Returns
    (map (fun j =>
            (nth j (lon_var example_output) NaN,
             nth j (lat_var example_output) NaN,
             node_total example_output
               (where_in_range Z.leb
                  (map (fun t => day_of t (time_units example_output))
                       (time_var example_output))
                  1%Z 2%Z) j))
         (seq 0 (length (lon_var example_output)))).
Proof.
  apply (extract_and_average_ersem_by_node float IEEE Z Z.leb day_of
           example_output_nc "ersem_output.nc" 1%Z 2%Z example_output).
  - reflexivity.
  - split; [reflexivity|]. intros P HP. simpl in HP.
    repeat (destruct HP as [<- | HP]; [repeat split; simpl; lia|]).
    destruct HP.
  - vm_compute. discriminate.
Defined.

Section NodeFacts.

Context {F : Type} `{Number F}.

Lemma node_total_ext (d d' : ersem_dataset F) (idx : list nat) (j : nat) :
  P1_c_FillValue d = P1_c_FillValue d' ->
  (forall t, In t idx ->
     item3 (P1_c_var d) t 0 j = item3 (P1_c_var d') t 0 j /\
     item3 (P2_c_var d) t 0 j = item3 (P2_c_var d') t 0 j /\
     item3 (P3_c_var d) t 0 j = item3 (P3_c_var d') t 0 j /\
     item3 (P4_n_var d) t 0 j = item3 (P4_n_var d') t 0 j) ->
  node_total d idx j = node_total d' idx j.
Proof.
  intros Hfill Hsame. unfold node_total, node_mean. rewrite <- Hfill.
  assert (E : forall P P' : ndarray3 F,
             (forall t, In t idx -> item3 P t 0 j = item3 P' t 0 j) ->
             map (fun t => if feq (item3 P t 0 j) (P1_c_FillValue d) then NaN
                           else item3 P t 0 j) idx =
             map (fun t => if feq (item3 P' t 0 j) (P1_c_FillValue d) then NaN
                           else item3 P' t 0 j) idx).
  { intros P P' HP. apply map_ext_in. intros t Ht. now rewrite (HP t Ht). }
  rewrite (E (P1_c_var d) (P1_c_var d')) by (intros t Ht; apply (Hsame t Ht)).
  rewrite (E (P2_c_var d) (P2_c_var d')) by (intros t Ht; apply (Hsame t Ht)).
  rewrite (E (P3_c_var d) (P3_c_var d')) by (intros t Ht; apply (Hsame t Ht)).
  rewrite (E (P4_n_var d) (P4_n_var d')) by (intros t Ht; apply (Hsame t Ht)).
  reflexivity.
Qed.

End NodeFacts.

(** X24: [extract_and_average_ersem] reads the four variables only at the top
    layer and at the time stamps in the range: two files that agree there, and
    on [time], [lon], [lat] and the fill value, give the same frame, whatever
    they hold in the layers below and at other times. *)
Theorem extract_and_average_ersem_reads_top_layer_in_range
    (F : Type) (num : Number F) (date : Type) (date_leb : date -> date -> bool)
    (num2date : F -> string -> date)
    (fs fs' : nc_files (ersem_dataset F)) (nc_file nc_file' : string)
    (start_time end_time : date) (d d' : ersem_dataset F) :
  fs nc_file = Some d -> fs' nc_file' = Some d' ->
  laid_out d -> laid_out d' ->
  time_var d = time_var d' -> time_units d = time_units d' ->
  lon_var d = lon_var d' -> lat_var d = lat_var d' ->
  P1_c_FillValue d = P1_c_FillValue d' ->
  (forall t j,
     In t (where_in_range date_leb
             (map (fun t => num2date t (time_units d)) (time_var d))
             start_time end_time) ->
     item3 (P1_c_var d) t 0 j = item3 (P1_c_var d') t 0 j /\
     item3 (P2_c_var d) t 0 j = item3 (P2_c_var d') t 0 j /\
     item3 (P3_c_var d) t 0 j = item3 (P3_c_var d') t 0 j /\
     item3 (P4_n_var d) t 0 j = item3 (P4_n_var d') t 0 j) ->
  extract_and_average_ersem date_leb num2date fs nc_file start_time end_time =
  extract_and_average_ersem date_leb num2date fs' nc_file' start_time end_time.
Proof.
  intros Hfs Hfs' Hlaid Hlaid' Htime Hunits Hlon Hlat Hfill Hsame.
  destruct (where_in_range date_leb
              (map (fun t => num2date t (time_units d)) (time_var d))
              start_time end_time) as [|t0 idx] eqn:E.
  - unfold extract_and_average_ersem, Dataset. rewrite Hfs, Hfs'. cbn [obind].
    rewrite <- Htime, <- Hunits, E. reflexivity.
  - rewrite (extract_and_average_ersem_nodes date date_leb num2date fs nc_file
               start_time end_time d Hfs Hlaid) by (rewrite E; discriminate).
    rewrite (extract_and_average_ersem_nodes date date_leb num2date fs' nc_file'
               start_time end_time d' Hfs' Hlaid')
      by (rewrite <- Htime, <- Hunits, E; discriminate).
    rewrite <- Htime, <- Hunits, <- Hlon, <- Hlat, E. f_equal.
    apply map_ext. intros j. f_equal.
    apply node_total_ext; [exact Hfill|]. intros t Ht. now apply Hsame.
Qed.

Lemma extract_and_average_ersem_reads_top_layer_in_range_witness :
  extract_and_average_ersem Z.leb day_of example_output_nc "ersem_output.nc"
    1%Z 2%Z =
  extract_and_average_ersem Z.leb day_of other_output_nc "ersem_output.nc"
    1%Z 2%Z.
Proof.
  apply (extract_and_average_ersem_reads_top_layer_in_range float IEEE Z Z.leb
           day_of example_output_nc other_output_nc "ersem_output.nc"
           "ersem_output.nc" 1%Z 2%Z example_output other_output).
  - reflexivity.
  - reflexivity.
  - split; [reflexivity|]. intros P HP. simpl in HP.
    repeat (destruct HP as [<- | HP]; [repeat split; simpl; lia|]).
    destruct HP.
  - split; [reflexivity|]. intros P HP. simpl in HP.
    repeat (destruct HP as [<- | HP]; [repeat split; simpl; lia|]).
    destruct HP.
  - reflexivity.
  - reflexivity.
  - reflexivity.
  - reflexivity.
  - reflexivity.
  - intros t j Ht.
    vm_compute in Ht. destruct Ht as [<- | [<- | []]]; repeat split.
Defined.

Module MissingFacts.

Lemma fadd_none_iff (a b : xreal) : fadd a b = None <-> a = None \/ b = None.
Proof.
  destruct a as [x|], b as [y|]; simpl; split; intros H0;
    try discriminate; try tauto; try (now left); try (now right).
  destruct H0; discriminate.
Qed.

Lemma values_nil_iff (col : list xreal) :
  values col = [] <-> forall x, In x col -> x = None.
Proof.
  induction col as [|[v|] col IH]; simpl.
  - split; [intros _ x [] | reflexivity].
  - split; [discriminate|]. intros Hall.
    now specialize (Hall (Some v) (or_introl eq_refl)).
  - rewrite IH. split.
    + intros Hall x [<- | Hx]; [reflexivity | now apply Hall].
    + intros Hall x Hx. apply Hall. now right.
Qed.

Lemma nanmean_none_iff (col : list xreal) :
  nanmean col = None <-> forall x, In x col -> x = None.
Proof.
  rewrite MeanFacts.nanmean_values, <- values_nil_iff.
  destruct (values col); split; intros H0; try reflexivity; discriminate.
Qed.

Lemma mask_none_iff (fill_value v : xreal) :
  (if feq v fill_value then NaN else v) = None <-> valid fill_value v = false.
Proof.
  unfold valid. cbn [feq isnan NaN Exact].
  destruct v as [x|]; cbn [xisnan negb andb].
  - destruct (xeq (Some x) fill_value); cbn [negb]; split; intros H0;
      first [reflexivity | discriminate].
  - destruct (xeq None fill_value); split; intros _; reflexivity.
Qed.

Lemma node_mean_none_iff (fill_value : xreal) (P : ndarray3 xreal)
    (idx : list nat) (j : nat) :
  node_mean fill_value P idx j = None <->
  forall t, In t idx -> valid fill_value (item3 P t 0 j) = false.
Proof.
  unfold node_mean. rewrite nanmean_none_iff. split.
  - intros Hall t Ht. apply mask_none_iff. apply Hall.
    apply in_map_iff. now exists t.
  - intros Hall x Hx. apply in_map_iff in Hx. destruct Hx as (t & <- & Ht).
    apply mask_none_iff. now apply Hall.
Qed.

End MissingFacts.

(** X25: in exact arithmetic, the [Total_P] of a node is missing exactly when
    one of the four variables has, at that node, no valid value (neither NaN
    nor the fill value of [P1_c]) among the time stamps in the range: a node
    that lacks one variable gets no total from the other three. *)
Theorem extract_and_average_ersem_missing
    (date : Type) (date_leb : date -> date -> bool)
    (num2date : xreal -> string -> date)
    (fs : nc_files (ersem_dataset xreal)) (nc_file : string)
    (start_time end_time : date) (dataset : ersem_dataset xreal)
    (data : list (xreal * xreal * xreal)) (j : nat) (lon lat total : xreal) :
  fs nc_file = Some dataset -> laid_out dataset ->
  extract_and_average_ersem date_leb num2date fs nc_file start_time end_time =
    Returns data ->
  nth_error data j = Some (lon, lat, total) ->
  (total = None <->
   exists P, In P [P1_c_var dataset; P2_c_var dataset; P3_c_var dataset;
                   P4_n_var dataset] /\
     forall t,
       In t (where_in_range date_leb
               (map (fun t => num2date t (time_units dataset))
                    (time_var dataset))
               start_time end_time) ->
       valid (P1_c_FillValue dataset) (item3 P t 0 j) = false).
Proof.
  intros Hfs Hlaid Hrun Hj.
  set (idx := where_in_range date_leb
                (map (fun t => num2date t (time_units dataset))
                     (time_var dataset)) start_time end_time) in *.
  assert (Hsome : idx <> []).
  { intros E. unfold extract_and_average_ersem, Dataset in Hrun.
    rewrite Hfs in Hrun. cbn [obind] in Hrun. fold idx in Hrun.
    rewrite E in Hrun. discriminate. }
  rewrite (extract_and_average_ersem_nodes date date_leb num2date fs nc_file
             start_time end_time dataset Hfs Hlaid Hsome) in Hrun.
  fold idx in Hrun.
  assert (Hdata : data =
            map (fun j => (nth j (lon_var dataset) NaN,
                           nth j (lat_var dataset) NaN,
                           node_total dataset idx j))
                (seq 0 (length (lon_var dataset)))) by congruence.
  rewrite Hdata, nth_error_map in Hj.
  destruct (nth_error (seq 0 (length (lon_var dataset))) j) as [j'|] eqn:Ej;
    [|discriminate].
  assert (Hlt : j < length (seq 0 (length (lon_var dataset))))
    by (apply nth_error_Some; congruence).
  rewrite length_seq in Hlt.
  apply (nth_error_nth _ _ 0) in Ej. rewrite seq_nth in Ej by exact Hlt.
  simpl in Ej. subst j'.
  assert (Ht : total = node_total dataset idx j)
    by (cbv beta iota delta [option_map] in Hj; fold idx in Hj; congruence).
  rewrite Ht. unfold node_total. cbv zeta.
  rewrite !MissingFacts.fadd_none_iff.
  rewrite !MissingFacts.node_mean_none_iff. fold idx. split.
  - intros [[[H1 | H2] | H3] | H4].
    + exists (P1_c_var dataset). split; [simpl; tauto | exact H1].
    + exists (P2_c_var dataset). split; [simpl; tauto | exact H2].
    + exists (P3_c_var dataset). split; [simpl; tauto | exact H3].
    + exists (P4_n_var dataset). split; [simpl; tauto | exact H4].
  - intros (P & HP & Hall). simpl in HP.
    destruct HP as [<- | [<- | [<- | [<- | []]]]]; tauto.
Qed.

Lemma extract_and_average_ersem_missing_witness :
  node_total filled_output [0] 0 = None <->
  exists P, In P [P1_c_var filled_output; P2_c_var filled_output;
                  P3_c_var filled_output; P4_n_var filled_output] /\
    forall t,
      In t (where_in_range Nat.leb
              (map (fun t => 0) (time_var filled_output)) 0 0) ->
      valid (P1_c_FillValue filled_output) (item3 P t 0 0) = false.
Proof.
  apply (extract_and_average_ersem_missing nat Nat.leb (fun _ _ => 0)
           filled_output_nc "ersem_output.nc" 0 0 filled_output
           [(Some 1%R, Some 2%R, node_total filled_output [0] 0)] 0
           (Some 1%R) (Some 2%R)).
  - reflexivity.
  - split; [reflexivity|]. intros P HP. simpl in HP.
    repeat (destruct HP as [<- | HP]; [repeat split; simpl; lia|]).
    destruct HP.
  - reflexivity.
  - reflexivity.
Defined.



